(** * analyze_batch3: a shallow embedding of scripts/analyze_batch3.py

    The script classifies marketplace records: it aggregates the description
    text of a record, detects an integration label by an ordered keyword
    table, extracts lifecycle tags by regular expressions, and generates a
    (function, value) pair of sentences.  Each Python function is embedded
    as a Rocq function of the same name; the theorems at the end state what
    the specification says about them. *)

From Stdlib Require Import Strings.String Strings.Ascii.
From stdpp Require Import base numbers list sorting gmap pretty.

Local Open Scope N_scope.

(** ** Python strings

    A Python [str] is a sequence of Unicode code points.  [len] is the
    number of code points, so a CJK full stop counts for one character. *)

Module PyStr.

Abbreviation char := N (only parsing).
Abbreviation str := (list N) (only parsing).

(** An ASCII literal of the source, code point by code point. *)
Definition py (s : string) : str :=
  (λ a, N_of_ascii a) <$> list_ascii_of_string s.

(** The three CJK sentence terminators of the source: the ideographic full
    stop U+3002, the fullwidth exclamation mark U+FF01 and the fullwidth
    question mark U+FF1F. *)
Definition cjk_full_stop : char := 12290.
Definition cjk_exclamation : char := 65281.
Definition cjk_question : char := 65311.

Definition in_range (lo hi c : N) : bool := (lo <=? c) && (c <=? hi).

(** [str.lower()], per code point.  The table covers ASCII and the Latin-1
    supplement; a code point outside them is left as it is, which is what
    Python does for digits, punctuation, white space and CJK text.  Python
    lower-cases the letters of further scripts as well, some of them to
    more than one code point: what is stated of every text is stated over
    [Unicode] below, where [str.lower()] is a parameter. *)
Definition lower_char (c : char) : char :=
  if in_range 65 90 c then c + 32
  else if in_range 192 214 c || in_range 216 222 c then c + 32
  else c.

Definition lower (s : str) : str := lower_char <$> s.

(** [str.isspace()] for one code point: the white space [str.strip()]
    removes. *)
Definition isspace (c : char) : bool :=
  in_range 9 13 c || in_range 28 32 c || (c =? 133) || (c =? 160)
  || (c =? 5760) || in_range 8192 8202 c || (c =? 8232) || (c =? 8233)
  || (c =? 8239) || (c =? 8287) || (c =? 12288).

Fixpoint lstrip (s : str) : str :=
  match s with
  | c :: s' => if isspace c then lstrip s' else s
  | [] => []
  end.

Definition rstrip (s : str) : str := reverse (lstrip (reverse s)).

(** [s.strip()] *)
Definition strip (s : str) : str := lstrip (rstrip s).

(** [s.startswith(p)] *)
Fixpoint startswith (p s : str) : bool :=
  match p, s with
  | [], _ => true
  | a :: p', b :: s' => (a =? b) && startswith p' s'
  | _ :: _, [] => false
  end.

(** [needle in hay] on strings: [needle] occurs as a substring. *)
Fixpoint contains (needle hay : str) : bool :=
  startswith needle hay ||
  match hay with
  | [] => false
  | _ :: hay' => contains needle hay'
  end.

(** [sep.join(parts)] *)
Fixpoint join (sep : str) (parts : list str) : str :=
  match parts with
  | [] => []
  | [p] => p
  | p :: rest => p ++ sep ++ join sep rest
  end.

(** [s.split(c)] for a separator of one character: the pieces between the
    occurrences of [c], never an empty list. *)
Fixpoint split (c : char) (s : str) : list str :=
  match s with
  | [] => [[]]
  | a :: s' =>
      if a =? c then [] :: split c s'
      else match split c s' with
           | piece :: pieces => (a :: piece) :: pieces
           | [] => [[a]]
           end
  end.

(** Python orders strings by code point, a proper prefix first. *)
Fixpoint str_leb (a b : str) : bool :=
  match a, b with
  | [], _ => true
  | _ :: _, [] => false
  | x :: a', y :: b' => (x <? y) || ((x =? y) && str_leb a' b')
  end.

Definition str_le (a b : str) : Prop := str_leb a b = true.

#[export] Instance str_le_dec a b : Decision (str_le a b).
Proof. unfold str_le. apply _. Defined.

(** [\w] of the [re] module on [str] patterns: the underscore and what
    [str.isalnum()] accepts.  The table is exact on ASCII and Latin-1 and
    covers kana, CJK ideographs, Hangul syllables and the fullwidth digits
    and letters beyond them.  Python's class holds the letters and digits
    of further scripts: what is stated of every text is stated over
    [Unicode] below, where the class is a parameter. *)
Definition is_word (c : char) : bool :=
  in_range 48 57 c || in_range 65 90 c || (c =? 95) || in_range 97 122 c
  || (c =? 170) || in_range 178 179 c || (c =? 181) || in_range 185 186 c
  || in_range 188 190 c || in_range 192 214 c || in_range 216 246 c
  || in_range 248 255 c
  || in_range 12353 12438 c || in_range 12449 12538 c
  || in_range 19968 40959 c || in_range 44032 55203 c
  || in_range 65296 65305 c || in_range 65313 65338 c
  || in_range 65345 65370 c.

End PyStr.
Export PyStr.

(** ** The regular expressions of the source

    The script uses three shapes of pattern; each is embedded as the
    matcher the [re] module runs for it. *)

Module Regex.

(** A pattern character: itself, or the dot, which matches every
    character but the line feed. *)
Inductive atom := Lit (c : char) | AnyChar.

Definition atom_of (c : char) : atom := if c =? 46 then AnyChar else Lit c.

(** The alternatives between the parentheses of [\b(a|b|c)\b]. *)
Definition alternation (src : string) : list (list atom) :=
  (λ alt : str, atom_of <$> alt) <$> split 124 (py src).

Definition atom_matches (a : atom) (c : char) : bool :=
  match a with
  | Lit x => x =? c
  | AnyChar => negb (c =? 10)
  end.

(** Match one alternative at the head of [s]: the last character consumed
    ([prev] when the alternative is empty) and the text left. *)
Fixpoint match_atoms (p : list atom) (prev : option char) (s : str)
  : option (option char * str) :=
  match p with
  | [] => Some (prev, s)
  | a :: p' =>
      match s with
      | c :: s' => if atom_matches a c then match_atoms p' (Some c) s' else None
      | [] => None
      end
  end.

Definition word_at (c : option char) : bool := from_option is_word false c.

(** [\b] between the character before and the character after a position;
    outside the string counts as a non-word character. *)
Definition boundary (before after : option char) : bool :=
  xorb (word_at before) (word_at after).

Definition match_here (alts : list (list atom)) (prev : option char) (s : str) : bool :=
  boundary prev (head s) &&
  existsb (λ p, match match_atoms p prev s with
                | Some (last, rest) => boundary last (head rest)
                | None => false
                end) alts.

Fixpoint search_from (alts : list (list atom)) (prev : option char) (s : str) : bool :=
  match_here alts prev s ||
  match s with
  | [] => false
  | c :: s' => search_from alts (Some c) s'
  end.

(** [re.search(r'\b(' + src + r')\b', s)] as a truth value. *)
Definition re_search (src : string) (s : str) : bool :=
  search_from (alternation src) None s.

Definition is_cjk_terminator (c : char) : bool :=
  (c =? cjk_full_stop) || (c =? cjk_exclamation) || (c =? cjk_question).

(** The characters of the class [.!?] followed by the CJK terminators. *)
Definition is_terminator (c : char) : bool :=
  (c =? 46) || (c =? 33) || (c =? 63) || is_cjk_terminator c.

(** The lazy [.+?] once it holds one character: extend it up to the first
    CJK terminator, giving up at a line feed. *)
Fixpoint lazy_until_cjk (s : str) : option str :=
  match s with
  | [] => None
  | c :: s' =>
      if is_cjk_terminator c then Some [c]
      else if c =? 10 then None
      else (c ::.) <$> lazy_until_cjk s'
  end.

(** [re.match(r'^(.+?[CJK terminators])', s)], group 1. *)
Definition re_match_cjk (s : str) : option str :=
  match s with
  | [] => None
  | c :: s' => if c =? 10 then None else (c ::.) <$> lazy_until_cjk s'
  end.

(** The greedy run [[^terminators]+] and what follows it. *)
Fixpoint span_sentence (s : str) : str * str :=
  match s with
  | [] => ([], [])
  | c :: s' =>
      if is_terminator c then ([], s)
      else let '(run, rest) := span_sentence s' in (c :: run, rest)
  end.

(** [re.match(r'^([^terminators]+[terminators]?)', s)], group 1. *)
Definition re_match_sentence (s : str) : option str :=
  let '(run, rest) := span_sentence s in
  match run with
  | [] => None
  | _ :: _ =>
      Some (run ++ match rest with
                   | c :: _ => if is_terminator c then [c] else []
                   | [] => []
                   end)
  end.

End Regex.
Export Regex.

(** ** The data model

    A record is the [dict] that [json.load] gives.  A key that holds a
    string may be missing, may hold [null] or may hold a string. *)

Inductive field := Absent | Null | Str (s : str).

(** [d.get(key)]: [None] for a missing key and for [null]. *)
Definition get (f : field) : option str :=
  match f with
  | Str s => Some s
  | Absent | Null => None
  end.

(** [d.get(key, default)]: the default for a missing key only. *)
Definition get_default (f : field) (default : str) : option str :=
  match f with
  | Str s => Some s
  | Absent => Some default
  | Null => None
  end.

(** Truth value of a value that is [None] or a string. *)
Definition truthy (v : option str) : bool :=
  match v with
  | Some (_ :: _) => true
  | Some [] | None => false
  end.

(** A skill or a command. *)
Record Item := { item_name : field; item_description : field }.

Record PluginRecord := {
  plugin_name : field;
  plugin_description : field;
  skills : list Item;
  commands : list Item
}.

(** A record without the key [repo] is the record whose [repo] is the
    empty string, and likewise a missing list is the empty list.  The
    records of this type hold a string for [repo] and lists for [plugins],
    [skills] and [commands]; a record with [null] in one of these places is
    none of them. *)
Record MarketplaceRecord := {
  repo : str;
  name : field;
  description : field;
  plugins : list PluginRecord
}.

Record AnalysisResult := {
  result_repo : str;
  function : option str;
  value : option str;
  stage_lifecycle_arch : list str;
  integration : option str
}.

(** What a call does: it returns, or it raises. *)
Inductive exn := TypeError.

Inductive outcome (A : Type) :=
  | Return (a : A)
  | Raise (e : exn).
Arguments Return {A} a.
Arguments Raise {A} e.

Definition bind {A B} (x : outcome A) (k : A → outcome B) : outcome B :=
  match x with
  | Return a => k a
  | Raise e => Raise e
  end.

(** ** Text aggregation (analyze_marketplace, the collecting loop) *)

Record texts := {
  all_info : list str;
  plugin_names : list str;
  skill_names : list str;
  command_names : list str
}.

(** [if v: l.append(v)] *)
Definition append_if (v : option str) (l : list str) : list str :=
  match v with
  | Some s => if truthy v then l ++ [s] else l
  | None => l
  end.

Definition collect_skill (t : texts) (s : Item) : texts :=
  {| all_info := append_if (get (item_description s)) (all_info t);
     plugin_names := plugin_names t;
     skill_names := append_if (get (item_name s)) (skill_names t);
     command_names := command_names t |}.

Definition collect_command (t : texts) (c : Item) : texts :=
  {| all_info := append_if (get (item_description c)) (all_info t);
     plugin_names := plugin_names t;
     skill_names := skill_names t;
     command_names := append_if (get (item_name c)) (command_names t) |}.

Definition collect_plugin (t : texts) (p : PluginRecord) : texts :=
  let t1 :=
    {| all_info := append_if (get (plugin_description p)) (all_info t);
       plugin_names := append_if (get (plugin_name p)) (plugin_names t);
       skill_names := skill_names t;
       command_names := command_names t |} in
  let t2 := foldl collect_skill t1 (skills p) in
  foldl collect_command t2 (commands p).

Definition collect (m : MarketplaceRecord) : texts :=
  let t0 :=
    {| all_info := append_if (get_default (description m) []) [];
       plugin_names := [];
       skill_names := [];
       command_names := [] |} in
  foldl collect_plugin t0 (plugins m).

(** [combined] and [all_names] as analyze_marketplace computes them. *)
Definition combined_text (m : MarketplaceRecord) : str :=
  lower (join (py " ") (all_info (collect m))).

Definition name_text (m : MarketplaceRecord) : str :=
  let t := collect m in
  lower (join (py " ") (plugin_names t ++ skill_names t ++ command_names t)).

(** ['kw' in text] for a keyword literal of the source. *)
Definition has (kw : string) (text : str) : bool := contains (py kw) text.

(** [s == 'label'] for a literal of the source. *)
Definition equals (label : string) (s : str) : bool := bool_decide (s = py label).

(** ** detect_integration *)

(** The ordered keyword table, in the order of the source. *)
Definition integrations : list (string * string) := [
  (* Specific frameworks/tools first *)
  ("holoviz", "HoloViz");
  ("treasure data", "Treasure Data");
  ("home assistant", "Home Assistant");
  ("esphome", "ESPHome");
  ("graphpad prism", "GraphPad Prism");
  ("redpanda connect", "Redpanda Connect");
  ("shesha", "Shesha Framework");
  ("microsoft 365", "Microsoft 365");
  ("m365", "Microsoft 365");
  ("google workspace", "Google Workspace");
  ("twenty crm", "Twenty CRM");
  ("makerkit", "MakerKit");
  ("dojo", "Dojo/Starknet");
  ("starknet", "Dojo/Starknet");
  ("shioaji", "Shioaji");
  ("frappe", "Frappe/ERPNext");
  ("erpnext", "Frappe/ERPNext");
  ("maui blazor", ".NET MAUI Blazor");
  ("nette", "Nette Framework");
  ("composable architecture", "Swift/TCA");
  ("tca", "Swift/TCA");
  ("webviewbridge", "Swift/WebKit");
  ("langroid", "Langroid");
  ("langchain", "LangChain");
  ("dspy", "DSPy");
  ("insforge", "InsForge");
  (* Cloud/DevOps *)
  ("cloudflare worker", "Cloudflare Workers");
  ("railway", "Railway");
  ("vercel", "Vercel");
  ("hetzner", "Hetzner");
  ("kubernetes", "Kubernetes");
  ("k8s", "Kubernetes");
  ("terraform", "Terraform");
  ("docker", "Docker");
  ("github action", "GitHub Actions");
  ("buildkite", "Buildkite");
  ("gitlab", "GitLab");
  ("azure devops", "Azure DevOps");
  (* Cloud providers *)
  ("aws", "AWS");
  ("azure", "Azure");
  ("gcp", "GCP");
  ("google cloud", "GCP");
  (* Databases *)
  ("supabase", "Supabase");
  ("firebase", "Firebase");
  ("postgresql", "PostgreSQL");
  ("postgres", "PostgreSQL");
  ("mysql", "MySQL");
  ("mongodb", "MongoDB");
  ("redis", "Redis");
  ("neo4j", "Neo4j");
  ("duckdb", "DuckDB");
  ("drizzle", "Drizzle ORM");
  ("prisma", "Prisma");
  ("sqlalchemy", "SQLAlchemy");
  ("sql server", "SQL Server");
  ("tsqlt", "SQL Server");
  ("cool-mysql", "MySQL");
  (* Frontend frameworks *)
  ("next.js", "Next.js");
  ("nextjs", "Next.js");
  ("nuxt", "Nuxt");
  ("svelte", "Svelte");
  ("angular", "Angular");
  ("vue", "Vue");
  ("react native", "React Native");
  ("expo", "Expo");
  ("flutter", "Flutter");
  ("tanstack", "TanStack");
  ("taro", "Taro");
  (* Backend frameworks *)
  ("django", "Django");
  ("fastapi", "FastAPI");
  ("spring boot", "Spring Boot");
  ("springboot", "Spring Boot");
  ("laravel", "Laravel");
  ("laravel forge", "Laravel Forge");
  ("ruby on rails", "Ruby on Rails");
  ("rails", "Ruby on Rails");
  ("go gin", "Go Gin");
  ("gin framework", "Go Gin");
  ("go echo", "Go Echo");
  ("echo framework", "Go Echo");
  ("hono", "Hono");
  ("axum", "Rust Axum");
  ("asp.net", "ASP.NET");
  (* Languages *)
  ("elixir", "Elixir");
  ("phoenix", "Elixir/Phoenix");
  ("haskell", "Haskell");
  ("hoogle", "Haskell");
  ("julia", "Julia");
  ("elm", "Elm");
  ("dart", "Dart");
  ("rust", "Rust");
  ("golang", "Go");
  (* Game engines *)
  ("godot", "Godot");
  ("unity", "Unity");
  ("unreal", "Unreal");
  (* Tools *)
  ("ida pro", "IDA Pro");
  ("idapython", "IDA Pro");
  ("obsidian", "Obsidian");
  ("notion", "Notion");
  ("slack", "Slack");
  ("jira", "Jira");
  ("linear", "Linear");
  ("playwright", "Playwright");
  ("xcode", "Xcode");
  ("iterm", "iTerm2");
  ("tmux", "tmux");
  ("zellij", "Zellij");
  ("whisper", "Whisper");
  ("browserbase", "Browserbase");
  (* APIs/Services *)
  ("stripe", "Stripe");
  ("plaid", "Plaid");
  ("auth0", "Auth0");
  ("posthog", "PostHog");
  ("sentry", "Sentry");
  ("bugsnag", "Bugsnag");
  ("prometheus", "Prometheus");
  ("tavily", "Tavily");
  ("brevo", "Brevo");
  ("salesforce", "Salesforce");
  ("graphql", "GraphQL");
  ("openapi", "OpenAPI");
  (* AI/ML *)
  ("openai", "OpenAI");
  ("gemini", "Google Gemini");
  ("anthropic", "Anthropic");
  ("ollama", "Ollama");
  ("mlx", "MLX");
  ("pytorch", "PyTorch");
  ("transformers", "Transformers");
  ("modal", "Modal");
  ("olakai", "Olakai");
  (* Blockchain *)
  ("aptos", "Aptos");
  ("walrus", "Walrus");
  ("shelby", "Shelby/Aptos");
  ("web3", "Web3");
  ("blockchain", "Blockchain");
  (* CMS/Content *)
  ("wechat", "WeChat");
  ("ia writer", "iA Writer");
  (* Specific tools in repo names *)
  ("polars", "Polars");
  ("oxlint", "Oxlint");
  ("marksman", "Marksman")
]%string.

(** [keyword in combined or keyword in repo.lower()] *)
Definition keyword_hits (keyword : string) (combined repo : str) : bool :=
  has keyword combined || has keyword (lower repo).

(** The loop over the table: the name of the first pair whose keyword
    hits. *)
Fixpoint scan_integrations (table : list (string * string)) (combined repo : str)
  : option str :=
  match table with
  | [] => None
  | (keyword, name) :: rest =>
      if keyword_hits keyword combined repo then Some (py name)
      else scan_integrations rest combined repo
  end.

(** The rules after the loop, which read [combined] alone. *)
Definition generic_integration (combined : str) : option str :=
  (* Check for React last (common word) *)
  if has "react" combined && negb (has "native" combined)
     && negb (has "reactive" combined) then Some (py "React")
  (* Python is generic *)
  else if has "python" combined
          && negb (existsb (λ x, has x combined) ["django"; "fastapi"; "flask"]%string)
  then Some (py "Python")
  (* TypeScript is generic *)
  else if has "typescript" combined then Some (py "TypeScript")
  (* .NET *)
  else if has ".net" combined || has "dotnet" combined then Some (py ".NET")
  (* Go *)
  else if has " go " combined || startswith (py "go ") combined
          || has "golang" combined then Some (py "Go")
  (* Swift *)
  else if has "swift" combined && negb (has "swiftui" combined) then Some (py "Swift")
  else None.

Definition detect_integration (combined all_names repo : str) : option str :=
  match scan_integrations integrations combined repo with
  | Some name => Some name
  | None => generic_integration combined
  end.

(** ** detect_tags *)

(** The tag table; each pattern stands between [\b(] and [)\b]. *)
Definition tag_patterns : list (string * string) := [
  (* Lifecycle stages *)
  ("plan|planning|spec|specification|requirement|prd|roadmap", "planning");
  ("design|architect|uml|diagram|blueprint|wireframe", "design");
  ("implement|develop|code|build|scaffold|generate", "implementation");
  ("test|tdd|bdd|unit test|e2e|playwright|jest|pytest", "testing");
  ("deploy|ci/cd|release|ship|publish|pipeline", "deployment");
  ("monitor|observ|metric|telemetry|trace|log", "monitoring");
  ("debug|troubleshoot|diagnos|fix|error", "debugging");
  ("document|doc|readme|changelog|wiki", "documentation");
  ("review|pr review|code review|audit", "code-review");
  (* Architecture patterns *)
  ("context|memory|session|persist|state", "context-management");
  ("orchestrat|multi-agent|workflow|pipeline|coordinate", "orchestration");
  ("frontend|ui|component|css|style|tailwind", "frontend");
  ("backend|api|server|endpoint|rest|graphql", "backend");
  ("database|sql|migration|schema|orm|query", "database");
  ("devops|infrastructure|cloud|container|k8s", "devops");
  ("security|auth|oauth|vulnerability|encrypt|permission", "security");
  ("git|commit|branch|merge|rebase|pr|pull request", "version-control");
  ("refactor|clean|simplif|reorganize", "refactoring");
  ("research|analys|investigat|explor", "research");
  (* Domain areas *)
  ("visual|dashboard|chart|graph|plot", "data-visualization");
  ("data process|transform|etl|pipeline|ingest", "data-processing");
  ("mobile|ios|android|app store", "mobile");
  ("game|unity|godot|unreal", "game-development");
  ("llm|machine learning|ml|ai agent|prompt", "ai-ml");
  ("prompt engineer|prompt optim", "prompt-engineering");
  ("plugin develop|skill creat|marketplace", "plugin-development");
  ("incident|root cause|postmortem|sre", "incident-response");
  ("notification|alert|webhook|sound", "notifications");
  ("project manage|task|issue|ticket|backlog|sprint", "project-management");
  ("content|write|blog|article|copy", "content-creation");
  ("translate|i18n|localization|language", "localization");
  ("accessibility|a11y|wcag", "accessibility");
  ("performance|optim|speed|cache", "performance");
  ("reverse engineer|binary|decompile|disassembl", "reverse-engineering");
  ("crypto|trading|defi|finance|payment", "fintech");
  ("crm|customer|lead|sales", "crm");
  ("marketing|seo|campaign|analytics", "marketing");
  ("lsp|language server", "language-server");
  ("format|lint|prettier|eslint|style", "code-quality");
  ("type check|type signature|rbs|sorbet", "type-checking");
  ("ddd|domain.driven|bounded context", "domain-driven-design");
  ("tdd|test.driven", "test-driven-development")
]%string.

(** One turn of the loop: [if re.search(pattern, combined): tags.add(tag)]. *)
Definition add_tag (combined : str) (tags : gset (list N)) (row : string * string)
  : gset (list N) :=
  if re_search row.1 combined then {[ py row.2 ]} ∪ tags else tags.

Definition detect_tags (combined all_names : str) : gset (list N) :=
  foldl (add_tag combined) ∅ tag_patterns.

(** [sorted(l)] on strings. *)
Definition sorted (l : list str) : list str := merge_sort str_le l.

(** [sorted(list(tags)) if tags else ['general']] *)
Definition tag_list (tags : gset (list N)) : list str :=
  if decide (tags = ∅) then [py "general"] else sorted (elements tags).

(** ** generate_descriptions *)

#[export] Instance outcome_ret : MRet outcome := @Return.
#[export] Instance outcome_bind : MBind outcome := λ A B k x, bind x k.

(** The first plugin description that is not empty, or [None]. *)
Fixpoint first_plugin_description (ps : list PluginRecord) : option str :=
  match ps with
  | [] => None
  | p :: ps' =>
      if truthy (get (plugin_description p)) then get (plugin_description p)
      else first_plugin_description ps'
  end.

(** [sep.join(items)] on items that are [None] or strings: a [None] among
    them raises TypeError. *)
Definition join_values (sep : str) (items : list (option str)) : outcome str :=
  match mapM id items with
  | Some parts => Return (join sep parts)
  | None => Raise TypeError
  end.

(** The educated guesses from the plugin names. *)
Definition guess_from_names (names_combined : str) : option str * option str :=
  if has "git" names_combined || has "commit" names_combined then
    (Some (py "Automate git workflows including commits, branches, and pull requests."),
     Some (py "Streamline version control with consistent, well-formatted commits."))
  else if has "review" names_combined then
    (Some (py "Review code changes and provide feedback."),
     Some (py "Catch issues early with automated code review."))
  else if has "test" names_combined then
    (Some (py "Generate and run tests for code."),
     Some (py "Ensure code quality with comprehensive test coverage."))
  else (None, None).

(** The content rules that come before the integration label. *)
Definition content_rules (combined : str) : option (str * str) :=
  (* Data visualization (check first - more specific) *)
  if has "visualization" combined || has "holoviz" combined || (has "dashboard" combined && has "data" combined) then
    Some (py "Build interactive data visualizations and dashboards.",
          py "Create publication-quality visualizations with less code.")
  else
  (* API documentation *)
  if has "api" combined && (has "document" combined || has "endpoint" combined) && negb (has "visual" combined) then
    Some (py "Document and explore REST API endpoints through testing and analysis.",
          py "Understand and document APIs quickly without manual exploration.")
  else
  (* More dashboard types *)
  if has "dashboard" combined then
    Some (py "Build interactive data visualizations and dashboards.",
          py "Create publication-quality visualizations with less code.")
  else
  (* Root cause analysis *)
  if has "root cause" combined || has "incident" combined then
    Some (py "Investigate production incidents and identify root causes.",
          py "Reduce mean time to resolution with systematic debugging.")
  else
  (* Multi-agent orchestration *)
  if has "multi-agent" combined || has "orchestrat" combined then
    Some (py "Coordinate multiple AI agents to complete complex tasks.",
          py "Break down large problems into parallel workstreams.")
  else
  (* Session/context management *)
  if has "session" combined && (has "context" combined || has "memory" combined || has "analytics" combined) then
    Some (py "Track and manage session state, context, and analytics.",
          py "Maintain continuity across conversations and optimize performance.")
  else
  (* Spec-driven development *)
  if has "spec" combined && (has "driven" combined || has "workflow" combined) then
    Some (py "Follow specification-driven development with planning, design, and implementation phases.",
          py "Build software systematically with clear requirements and traceability.")
  else
  (* TDD/Testing *)
  if has "tdd" combined || has "test-driven" combined then
    Some (py "Implement features using test-driven development methodology.",
          py "Write reliable code with comprehensive test coverage from the start.")
  else
  (* Git workflows *)
  if has "git" combined && (has "commit" combined || has "workflow" combined || has "pr" combined) then
    Some (py "Automate git workflows including commits, branches, and pull requests.",
          py "Maintain clean git history with consistent commit conventions.")
  else
  (* Code review *)
  if has "code review" combined || has "pr review" combined then
    Some (py "Review code changes and provide feedback on quality, security, and best practices.",
          py "Catch bugs and improve code quality before merging.")
  else
  (* Plugin/skill development *)
  if has "plugin" combined && (has "develop" combined || has "create" combined || has "build" combined) then
    Some (py "Create and manage Claude Code plugins, skills, and commands.",
          py "Extend Claude Code with custom functionality tailored to your workflow.")
  else
  (* Documentation *)
  if has "document" combined || has "changelog" combined || has "readme" combined then
    Some (py "Generate and maintain project documentation including READMEs and changelogs.",
          py "Keep documentation up-to-date with minimal manual effort.")
  else
    None.

(** The branch [elif integration:], its dispatch on the label. *)
Definition describe_integration (integration : str) : str * str :=
  if equals "Flutter" integration then
    (py "Build and review Flutter/Dart applications with best practices.",
     py "Develop cross-platform mobile apps faster with expert guidance.")
  else if equals "Django" integration then
    (py "Develop Django applications following best practices and patterns.",
     py "Build robust Python web applications with proper architecture.")
  else if equals "Next.js" integration then
    (py "Build Next.js applications with React, routing, and server components.",
     py "Create production-ready React applications with modern patterns.")
  else if equals "Spring Boot" integration then
    (py "Develop Spring Boot applications with proper architecture and patterns.",
     py "Build enterprise Java applications following best practices.")
  else if equals "Godot" integration then
    (py "Develop, test, and deploy Godot game projects.",
     py "Accelerate game development with automated testing and deployment.")
  else if equals "IDA Pro" integration then
    (py "Analyze binaries and automate reverse engineering tasks in IDA Pro.",
     py "Accelerate security research with automated binary analysis.")
  else if equals "Supabase" integration then
    (py "Build applications with Supabase for database, auth, and storage.",
     py "Develop full-stack apps quickly with managed backend services.")
  else if equals "Jira" integration then
    (py "Manage Jira issues, sprints, and workflows.",
     py "Streamline project management with automated Jira operations.")
  else if equals "Linear" integration then
    (py "Manage Linear issues and development workflows.",
     py "Keep development in sync with project management.")
  else if equals "Home Assistant" integration then
    (py "Create Home Assistant automations, scripts, and ESPHome configurations.",
     py "Build smart home integrations with expert guidance.")
  else if equals "Obsidian" integration then
    (py "Manage Obsidian vaults including notes, links, and organization.",
     py "Keep your knowledge base organized and interconnected.")
  else if equals "Salesforce" integration then
    (py "Develop Salesforce applications including Apex, Flows, and metadata.",
     py "Build and maintain Salesforce customizations efficiently.")
  else if equals "Go" integration || equals "Go Gin" integration || equals "Go Echo" integration then
    (py "Develop Go applications with proper patterns and best practices.",
     py "Write idiomatic, performant Go code.")
  else if equals "Rust" integration then
    (py "Develop Rust applications with proper patterns and error handling.",
     py "Write safe, efficient Rust code.")
  else if equals "Elixir/Phoenix" integration then
    (py "Design and build Elixir/Phoenix applications with OTP patterns.",
     py "Create scalable, fault-tolerant systems.")
  else if equals "Laravel" integration then
    (py "Develop Laravel applications with proper patterns and conventions.",
     py "Build PHP applications following Laravel best practices.")
  else if equals "Expo" integration then
    (py "Build and deploy Expo/React Native mobile applications.",
     py "Ship mobile apps faster with streamlined development workflows.")
  else if equals "AWS" integration || equals "Azure" integration || equals "GCP" integration then
    (py "Deploy and manage cloud infrastructure on " ++ integration ++ py ".",
     py "Automate cloud operations with infrastructure as code.")
  else if equals "Kubernetes" integration then
    (py "Deploy and manage Kubernetes applications and configurations.",
     py "Simplify container orchestration and deployment.")
  else if equals "Docker" integration then
    (py "Build and manage Docker containers and development environments.",
     py "Standardize development and deployment with containers.")
  else if equals "Playwright" integration then
    (py "Automate browser testing and web scraping with Playwright.",
     py "Test web applications reliably across browsers.")
  else if equals "GraphQL" integration then
    (py "Design and implement GraphQL APIs and schemas.",
     py "Build flexible, efficient APIs with GraphQL.")
  else if equals "Stripe" integration then
    (py "Integrate Stripe payments, subscriptions, and webhooks.",
     py "Add payment processing to applications quickly.")
  else if equals "PostHog" integration then
    (py "Manage PostHog feature flags, analytics, and user tracking.",
     py "Make data-driven decisions with product analytics.")
  else if equals "Sentry" integration then
    (py "Debug application errors using Sentry error tracking.",
     py "Identify and fix bugs faster with error context.")
  else if equals "Notion" integration then
    (py "Manage and automate Notion workspaces and knowledge bases.",
     py "Keep documentation and knowledge organized.")
  else if equals "Slack" integration then
    (py "Search and interact with Slack workspaces and channels.",
     py "Find information and automate Slack workflows.")
  else if equals "Google Gemini" integration then
    (py "Generate images and content using Google Gemini APIs.",
     py "Create AI-generated assets for applications.")
  else if equals "LangChain" integration then
    (py "Build AI agents and workflows using LangChain.",
     py "Create sophisticated AI applications with modular components.")
  else if equals "Web3" integration then
    (py "Develop Web3 and blockchain applications.",
     py "Build decentralized applications with proper patterns.")
  else if equals "WeChat" integration then
    (py "Create WeChat Mini Programs and official account content.",
     py "Reach users on China's dominant messaging platform.")
  else
    (py "Develop " ++ integration ++ py " applications with best practices and patterns.",
     py "Build quality " ++ integration ++ py " projects faster.").

(** The content rules that come after the integration label. *)
Definition late_rules (combined : str) : option (str * str) :=
  (* Autonomous development *)
  if has "autonomous" combined || has "autopilot" combined || has "ralph" combined then
    Some (py "Run autonomous development loops that iterate until task completion.",
          py "Let AI handle repetitive development tasks independently.")
  else
  (* Research/analysis *)
  if has "research" combined && (has "deep" combined || has "web" combined) then
    Some (py "Conduct deep research using web search and source analysis.",
          py "Get comprehensive, verified answers to complex questions.")
  else
  (* Notifications *)
  if has "notification" combined || has "alert" combined || has "sound" combined then
    Some (py "Send notifications when Claude completes tasks or needs input.",
          py "Stay informed without watching the terminal.")
  else
  (* DDD *)
  if has "domain-driven" combined || has "ddd" combined || has "bounded context" combined then
    Some (py "Apply Domain-Driven Design principles to software architecture.",
          py "Build maintainable systems aligned with business domains.")
  else
  (* Security *)
  if has "security" combined && (has "audit" combined || has "review" combined || has "scan" combined) then
    Some (py "Audit code for security vulnerabilities and compliance issues.",
          py "Identify security risks before they reach production.")
  else
    None.

(** The sentence taken from [source], before it is cut and closed. *)
Definition first_sentence_of (source : str) : str :=
  (* If description is very short after splitting at first period, use full description *)
  let first_sentence := strip (hd [] (split 46 source)) in
  if (length first_sentence <? 10)%nat && (20 <? length source)%nat then
    (* Use the full description or first Chinese sentence *)
    match re_match_cjk source with
    | Some group => strip group
    | None => strip source
    end
  else
    (* Match first sentence (handles . ! ? and Chinese punctuation) *)
    match re_match_sentence source with
    | Some group => strip group
    | None => strip source
    end.

(** [if len(func) > 150: func = func[:147] + '...'] *)
Definition truncate (func : str) : str :=
  if (150 <? length func)%nat then take 147 func ++ py "..." else func.

(** [if func and not func[-1] in terminators: func = func + '.'] *)
Definition close_sentence (func : str) : str :=
  match last func with
  | Some c => if is_terminator c then func else func ++ py "."
  | None => func
  end.

(** The default branch: [func] from the source description. *)
Definition extract_function (source : str) : str :=
  close_sentence (truncate (first_sentence_of source)).

(** Generate value from context *)
Definition value_from_context (combined : str) : str :=
  if has "productivity" combined || has "workflow" combined then
    py "Improve development productivity with automated workflows."
  else if has "quality" combined then
    py "Maintain high code quality with consistent standards."
  else if has "speed" combined || has "fast" combined then
    py "Complete development tasks faster."
  else if has "learn" combined || has "teach" combined then
    py "Learn and improve development skills."
  else
    py "Streamline development workflows and reduce manual effort.".

Definition both (p : str * str) : option str * option str := (Some p.1, Some p.2).

Definition generate_descriptions (m : MarketplaceRecord) (combined : str)
    (integration : option str) (tags : gset (list N))
  : outcome (option str * option str) :=
  let desc := get_default (description m) [] in
  (* Get first meaningful plugin description *)
  let plugin_desc := first_plugin_description (plugins m) in
  (* Handle null/empty descriptions *)
  if negb (truthy desc) && negb (truthy plugin_desc) then
    (* Try to infer from repo name and plugin names *)
    let plugin_names := (λ p, get_default (plugin_name p) []) <$> plugins m in
    match plugin_names with
    | [] => Return (None, None)
    | _ :: _ =>
        joined ← join_values (py " ") plugin_names;
        Return (guess_from_names (lower joined))
    end
  else
    (* Use description to generate function *)
    let source := if truthy desc then desc else plugin_desc in
    match content_rules combined with
    | Some found => Return (both found)
    | None =>
        (* Framework-specific development *)
        if truthy integration then
          Return (both (describe_integration (default [] integration)))
        else
          match late_rules combined with
          | Some found => Return (both found)
          | None =>
              (* Default: use source description with light editing *)
              match source with
              | Some (c :: s) =>
                  Return (Some (extract_function (c :: s)),
                          Some (value_from_context combined))
              | Some [] | None => Return (None, None)
              end
          end
    end.

(** ** analyze_marketplace *)

Definition analyze_marketplace (m : MarketplaceRecord) (idx : nat)
  : outcome AnalysisResult :=
  let combined := combined_text m in
  let all_names := name_text m in
  (* Detect integration/framework *)
  let integration := detect_integration combined all_names (repo m) in
  (* Detect lifecycle tags *)
  let tags := detect_tags combined all_names in
  (* Generate function and value descriptions *)
  '(func, value) ← generate_descriptions m combined integration tags;
  Return {| result_repo := repo m;
            function := func;
            value := value;
            stage_lifecycle_arch := tag_list tags;
            integration := integration |}.

(** ** main *)

(** What [main] does to the world: it prints a line, or it writes the
    results as JSON to a path. *)
Inductive event :=
  | Print (line : str)
  | Dump (path : str) (results : list AnalysisResult).

Definition output_path : str :=
  py "/Users/brsbl/Documents/agent-mart/data/marketplace-analysis-batch-3.json".

(** [f"{n}"] for an integer that is not negative. *)
Definition decimal (n : nat) : str := py (pretty n).

(** [f"Processed {i + 1}/{len(data)}"] *)
Definition progress_line (processed total : nat) : event :=
  Print (py "Processed " ++ decimal processed ++ py "/" ++ decimal total).

(** The loop of [main] from index [i] on: the events so far and the results
    so far go in, the events and the results (or the exception that ended
    the loop) come out. *)
Fixpoint analyze_all (data : list MarketplaceRecord) (i total : nat)
    (results : list AnalysisResult) (log : list event)
  : list event * outcome (list AnalysisResult) :=
  match data with
  | [] => (log, Return results)
  | m :: rest =>
      match analyze_marketplace m (651 + i) with
      | Raise e => (log, Raise e)
      | Return result =>
          let results := results ++ [result] in
          let log :=
            if ((i + 1) mod 50 =? 0)%nat
            then log ++ [progress_line (i + 1) total]
            else log in
          analyze_all rest (S i) total results log
      end
  end.

(** [sum(1 for r in results if r[key])] *)
Definition count_truthy (key : AnalysisResult → option str)
    (results : list AnalysisResult) : nat :=
  sum_list_with (λ r, if truthy (key r) then 1%nat else 0%nat) results.

(** [main], on the data that [json.load] gave: the events in order, and
    whether it returned.  The input file is taken to be there and the
    output path to be writable; an exception comes from a record only. *)
Definition main (data : list MarketplaceRecord) : list event * outcome unit :=
  let total := length data in
  let log := [Print (py "Analyzing " ++ decimal total ++ py " marketplaces...")] in
  match analyze_all data 0 total [] log with
  | (log, Raise e) => (log, Raise e)
  | (log, Return results) =>
      (* Save results *)
      let log := log ++ [Dump output_path results] in
      let log :=
        log ++ [Print (py "Saved " ++ decimal (length results)
                       ++ py " analyses to " ++ output_path)] in
      (* Print summary stats *)
      let with_func := count_truthy function results in
      let with_integration := count_truthy integration results in
      let log :=
        log ++ [Print (py "With function: " ++ decimal with_func
                       ++ py "/" ++ decimal (length results))] in
      let log :=
        log ++ [Print (py "With integration: " ++ decimal with_integration
                       ++ py "/" ++ decimal (length results))] in
      (log, Return ())
  end.

(** ** Definitions the statements use *)

(** The record of the end-to-end scenario. *)
Definition kubernetes_record : MarketplaceRecord :=
  {| repo := py "x/y";
     name := Absent;
     description := Str (py "A tool for Kubernetes deployment automation.");
     plugins := [] |}.

(** A description of 200 letters, and one of 5 letters and 195 spaces. *)
Definition letters_200 : str := replicate 200 97.
Definition padded_200 : str := replicate 5 97 ++ replicate 195 32.

Definition described (text : str) : MarketplaceRecord :=
  {| repo := py "x/y"; name := Absent; description := Str text; plugins := [] |}.

(** No white space at either end of [s]. *)
Definition trimmed (s : str) : Prop :=
  (∀ c, head s = Some c → isspace c = false) ∧
  (∀ c, last s = Some c → isspace c = false).

(** The source of the first-sentence counterexample. *)
Definition wow_source : str := py "Wow! This is a great tool for everyone.".

(** The first sentence as the specification words it: the text before the
    first of the Latin terminators [.], [!] and [?]. *)
Definition is_latin_terminator (c : char) : bool :=
  (c =? 46) || (c =? 33) || (c =? 63).

Fixpoint before_latin_terminator (s : str) : str :=
  match s with
  | [] => []
  | c :: s' => if is_latin_terminator c then [] else c :: before_latin_terminator s'
  end.

(** The test that sends the extraction to the CJK pattern, on the first
    sentence of the specification's words. *)
Definition spec_cjk_reattempt (source : str) : bool :=
  (length (strip (before_latin_terminator source)) <? 10)%nat
  && (20 <? length source)%nat.

Definition spec_first_sentence_of (source : str) : str :=
  if spec_cjk_reattempt source then
    match re_match_cjk source with
    | Some group => strip group
    | None => strip source
    end
  else
    match re_match_sentence source with
    | Some group => strip group
    | None => strip source
    end.

(** [piece] is the part of [source] before its first period. *)
Definition before_first_period (source piece : str) : Prop :=
  (46 ∉ piece) ∧ (source = piece ∨ ∃ rest, source = piece ++ 46 :: rest).

(** [group] is the shortest prefix of [source] that ends in a CJK
    terminator after at least one other character, none of them a line
    feed. *)
Definition cjk_prefix (source group : str) : Prop :=
  ∃ c body t rest,
    source = c :: body ++ t :: rest ∧ group = c :: body ++ [t] ∧
    is_cjk_terminator t = true ∧ c ≠ 10 ∧
    ∀ x, x ∈ body → is_cjk_terminator x = false ∧ x ≠ 10.

(** [group] is the longest prefix of [source] free of terminators, not
    empty, with the terminator that follows it when there is one. *)
Definition sentence_prefix (source group : str) : Prop :=
  ∃ run,
    run ≠ [] ∧ (∀ x, x ∈ run → is_terminator x = false) ∧
    ((source = run ∧ group = run) ∨
     ∃ t rest, is_terminator t = true ∧ source = run ++ t :: rest ∧ group = run ++ [t]).

(** Row [i] of [table] is the first one whose keyword hits, and [name] is
    its label. *)
Definition first_hit (table : list (string * string)) (combined repo : str)
    (i : nat) (name : string) : Prop :=
  ∃ keyword,
    table !! i = Some (keyword, name) ∧
    keyword_hits keyword combined repo = true ∧
    ∀ j keyword' name',
      (j < i)%nat → table !! j = Some (keyword', name') →
      keyword_hits keyword' combined repo = false.

(** No keyword of [table] hits. *)
Definition no_hit (table : list (string * string)) (combined repo : str) : Prop :=
  ∀ keyword name,
    (keyword, name) ∈ table → keyword_hits keyword combined repo = false.

(** What a description field adds to the text: the string it holds, when
    it holds one that is not empty. *)
Definition present (f : field) : list str :=
  match f with
  | Str (c :: s) => [c :: s]
  | Str [] | Null | Absent => []
  end.

Definition item_texts (items : list Item) : list str :=
  items ≫= (λ i, present (item_description i)).

Definition plugin_texts (p : PluginRecord) : list str :=
  present (plugin_description p) ++ item_texts (skills p) ++ item_texts (commands p).

(** The aggregated descriptions as the specification words them: the
    record's, then for each plugin in order its own, its skills' and its
    commands'. *)
Definition spec_all_info (m : MarketplaceRecord) : list str :=
  present (description m) ++ (plugins m ≫= plugin_texts).

Definition same_item_description (a b : Item) : Prop :=
  item_description a = item_description b.

(** Two records with the same descriptions at every level; names and
    [repo] are free. *)
Definition same_descriptions (m m' : MarketplaceRecord) : Prop :=
  description m = description m' ∧
  Forall2 (λ p q, plugin_description p = plugin_description q ∧
                  Forall2 same_item_description (skills p) (skills q) ∧
                  Forall2 same_item_description (commands p) (commands q))
          (plugins m) (plugins m').

(** Two records that differ in the names of skills and commands only. *)
Definition same_but_item_names (m m' : MarketplaceRecord) : Prop :=
  repo m = repo m' ∧ name m = name m' ∧ description m = description m' ∧
  Forall2 (λ p q, plugin_name p = plugin_name q ∧
                  plugin_description p = plugin_description q ∧
                  Forall2 same_item_description (skills p) (skills q) ∧
                  Forall2 same_item_description (commands p) (commands q))
          (plugins m) (plugins m').

(** Skills or commands that carry a name and no description. *)
Definition named_only (names : list field) : list Item :=
  (λ n, {| item_name := n; item_description := Absent |}) <$> names.

(** Description "A" and two plugins with descriptions "B" and "C"; every
    other field is a parameter. *)
Definition abc_record (r : str) (nm n1 n2 : field) (s1 c1 s2 c2 : list field)
  : MarketplaceRecord :=
  {| repo := r; name := nm; description := Str (py "A");
     plugins := [ {| plugin_name := n1; plugin_description := Str (py "B");
                     skills := named_only s1; commands := named_only c1 |};
                  {| plugin_name := n2; plugin_description := Str (py "C");
                     skills := named_only s2; commands := named_only c2 |} ] |}.

Definition nameless (n : field) : PluginRecord :=
  {| plugin_name := n; plugin_description := Absent; skills := []; commands := [] |}.

(** A record without descriptions whose plugins carry the names [names]. *)
Definition names_record (names : list field) : MarketplaceRecord :=
  {| repo := py "x/y"; name := Absent; description := Absent;
     plugins := nameless <$> names |}.

(** [{"repo": "x/y", "plugins": [{"name": null}]}] *)
Definition null_name_record : MarketplaceRecord := names_record [Null].

(** [{"repo": "x/y", "plugins": [{"name": "commit-helper"}, {"name": null}]}] *)
Definition commit_and_null_record : MarketplaceRecord :=
  names_record [Str (py "commit-helper"); Null].

(** [{"repo": "x/y", "plugins": [{"name": "commit-helper"}]}] *)
Definition commit_helper_record : MarketplaceRecord :=
  names_record [Str (py "commit-helper")].

(** The canned pairs of the name heuristics. *)
Definition git_workflow_pair : option str * option str :=
  (Some (py "Automate git workflows including commits, branches, and pull requests."),
   Some (py "Streamline version control with consistent, well-formatted commits.")).

Definition code_review_pair : option str * option str :=
  (Some (py "Review code changes and provide feedback."),
   Some (py "Catch issues early with automated code review.")).

Definition testing_pair : option str * option str :=
  (Some (py "Generate and run tests for code."),
   Some (py "Ensure code quality with comprehensive test coverage.")).

(** The record has no usable text: no description of its own and none on
    a plugin. *)
Definition no_text (m : MarketplaceRecord) : Prop :=
  truthy (get (description m)) = false ∧
  ∀ p, p ∈ plugins m → truthy (get (plugin_description p)) = false.

(** No plugin holds [null] for a name. *)
Definition names_are_strings (m : MarketplaceRecord) : Prop :=
  ∀ p, p ∈ plugins m → plugin_name p ≠ Null.

(** The plugin names, a missing one as the empty string, joined by single
    spaces and lower-cased. *)
Definition joined_plugin_names (m : MarketplaceRecord) : str :=
  lower (join (py " ") ((λ p, default [] (get (plugin_name p))) <$> plugins m)).

(** A record without descriptions whose repo holds "typescript". *)
Definition typescript_repo_record : MarketplaceRecord :=
  {| repo := py "acme/TypeScript-tools"; name := Absent; description := Absent;
     plugins := [] |}.

(** A text that four unrelated tag patterns match. *)
Definition tagged_text : str := py "Test the API against the plan on k8s".

(** A source in CJK punctuation behind a short Latin head, and its first
    CJK sentence. *)
Definition cjk_source : str :=
  py "AI. " ++ [26500; 24314; 20255; 22823; 30340; 19996; 35199]
  ++ py " and more text " ++ [12290; 26356; 22810; 25991; 23383; 12290].

Definition cjk_sentence : str :=
  py "AI. " ++ [26500; 24314; 20255; 22823; 30340; 19996; 35199]
  ++ py " and more text " ++ [12290].

(** A described record with one plugin and one skill named [n]. *)
Definition skill_named (n : field) : MarketplaceRecord :=
  {| repo := py "x/y"; name := Absent;
     description := Str (py "Helpers for everyday chores.");
     plugins := [ {| plugin_name := Str (py "chores"); plugin_description := Absent;
                     skills := [ {| item_name := n;
                                    item_description := Str (py "Sweeps the floor.") |} ];
                     commands := [] |} ] |}.

(** The progress lines that [main] prints while it handles the records
    [first + 1 .. first + count] of [total]: one for each multiple of 50. *)
Definition progress_lines (first count total : nat) : list event :=
  (λ k, progress_line k total)
    <$> filter (λ k, (k mod 50 = 0)%nat) (seq (S first) count).

(** The four events that end a run of [main] that went through. *)
Definition closing_events (results : list AnalysisResult) : list event :=
  [ Dump output_path results;
    Print (py "Saved " ++ decimal (length results) ++ py " analyses to " ++ output_path);
    Print (py "With function: " ++ decimal (count_truthy function results)
           ++ py "/" ++ decimal (length results));
    Print (py "With integration: " ++ decimal (count_truthy integration results)
           ++ py "/" ++ decimal (length results)) ].

Definition is_dump (e : event) : Prop :=
  match e with Dump _ _ => True | Print _ => False end.

(** The names of a list of skills or commands that are strings and not
    empty. *)
Definition item_names (items : list Item) : list str :=
  items ≫= (λ i, present (item_name i)).

(** The aggregated names, kind by kind: the plugins' names, then the names
    of all skills, then the names of all commands. *)
Definition spec_all_names (m : MarketplaceRecord) : list str :=
  (plugins m ≫= (λ p, present (plugin_name p)))
  ++ (plugins m ≫= (λ p, item_names (skills p)))
  ++ (plugins m ≫= (λ p, item_names (commands p))).

(** No description of the record is a string that is not empty, at any
    level. *)
Definition no_description_anywhere (m : MarketplaceRecord) : Prop :=
  present (description m) = [] ∧
  ∀ p, p ∈ plugins m →
    present (plugin_description p) = [] ∧
    (∀ s, s ∈ skills p → present (item_description s) = []) ∧
    (∀ c, c ∈ commands p → present (item_description c) = []).

(** The labels of the rules that follow the keyword table. *)
Definition generic_labels : list string :=
  ["React"; "Python"; "TypeScript"; ".NET"; "Go"; "Swift"]%string.

(** [label] is a label the classifier knows: one of the table, or one of
    the rules after it. *)
Definition known_label (label : str) : Prop :=
  (∃ keyword name, (keyword, name) ∈ integrations ∧ label = py name)
  ∨ (∃ name, name ∈ generic_labels ∧ label = py name).

(** A record that holds nothing but a repo, a name and a description. *)
Definition bare_record (r : str) (nm : field) (text : str) : MarketplaceRecord :=
  {| repo := r; name := nm; description := Str text; plugins := [] |}.

(** Every character of [s] is white space. *)
Definition blank (s : str) : Prop := ∀ c, c ∈ s → isspace c = true.

(** A record without descriptions whose repo holds "docker". *)
Definition docker_repo_record : MarketplaceRecord :=
  {| repo := py "acme/Docker-images"; name := Absent; description := Null;
     plugins := [nameless (Str (py "test-runner")); nameless Absent] |}.

(** The result for [kubernetes_record]. *)
Definition kubernetes_result : AnalysisResult :=
  {| result_repo := py "x/y";
     function := Some (py "Deploy and manage Kubernetes applications and configurations.");
     value := Some (py "Simplify container orchestration and deployment.");
     stage_lifecycle_arch := [py "general"];
     integration := Some (py "Kubernetes") |}.


(** ** The model over the Unicode tables of Python

    [lower] and [is_word] above tabulate [str.lower()] and [\w] on ASCII
    and the Latin-1 supplement.  Python's own tables are part of the
    interpreter, not of the script.  The functions of the script that reach
    them are given here with the two library functions as parameters:
    [str_lower] for [str.lower()], a function on whole strings (it may
    change the length and it looks at the context of a letter), and
    [word_char] for the class [\w].  What is proved of these functions
    holds of the script on every text. *)

Module Unicode.
Section Functions.

Variable str_lower : list N → list N.
Variable word_char : N → bool.

Definition word_at (c : option char) : bool := from_option word_char false c.

(** [\b] between the character before and the character after a position;
    outside the string counts as a non-word character. *)
Definition boundary (before after : option char) : bool :=
  xorb (word_at before) (word_at after).

Definition match_here (alts : list (list atom)) (prev : option char) (s : str) : bool :=
  boundary prev (head s) &&
  existsb (λ p, match match_atoms p prev s with
                | Some (last, rest) => boundary last (head rest)
                | None => false
                end) alts.

Fixpoint search_from (alts : list (list atom)) (prev : option char) (s : str) : bool :=
  match_here alts prev s ||
  match s with
  | [] => false
  | c :: s' => search_from alts (Some c) s'
  end.

(** [re.search(r'\b(' + src + r')\b', s)] as a truth value. *)
Definition re_search (src : string) (s : str) : bool :=
  search_from (alternation src) None s.

(** [combined] and [all_names] as analyze_marketplace computes them. *)
Definition combined_text (m : MarketplaceRecord) : str :=
  str_lower (join (py " ") (all_info (collect m))).

Definition name_text (m : MarketplaceRecord) : str :=
  let t := collect m in
  str_lower (join (py " ") (plugin_names t ++ skill_names t ++ command_names t)).

(** [keyword in combined or keyword in repo.lower()] *)
Definition keyword_hits (keyword : string) (combined repo : str) : bool :=
  has keyword combined || has keyword (str_lower repo).

(** The loop over the table: the name of the first pair whose keyword
    hits. *)
Fixpoint scan_integrations (table : list (string * string)) (combined repo : str)
  : option str :=
  match table with
  | [] => None
  | (keyword, name) :: rest =>
      if keyword_hits keyword combined repo then Some (py name)
      else scan_integrations rest combined repo
  end.

Definition detect_integration (combined all_names repo : str) : option str :=
  match scan_integrations integrations combined repo with
  | Some name => Some name
  | None => generic_integration combined
  end.

(** One turn of the loop: [if re.search(pattern, combined): tags.add(tag)]. *)
Definition add_tag (combined : str) (tags : gset (list N)) (row : string * string)
  : gset (list N) :=
  if re_search row.1 combined then {[ py row.2 ]} ∪ tags else tags.

Definition detect_tags (combined all_names : str) : gset (list N) :=
  foldl (add_tag combined) ∅ tag_patterns.

Definition generate_descriptions (m : MarketplaceRecord) (combined : str)
    (integration : option str) (tags : gset (list N))
  : outcome (option str * option str) :=
  let desc := get_default (description m) [] in
  (* Get first meaningful plugin description *)
  let plugin_desc := first_plugin_description (plugins m) in
  (* Handle null/empty descriptions *)
  if negb (truthy desc) && negb (truthy plugin_desc) then
    (* Try to infer from repo name and plugin names *)
    let plugin_names := (λ p, get_default (plugin_name p) []) <$> plugins m in
    match plugin_names with
    | [] => Return (None, None)
    | _ :: _ =>
        joined ← join_values (py " ") plugin_names;
        Return (guess_from_names (str_lower joined))
    end
  else
    (* Use description to generate function *)
    let source := if truthy desc then desc else plugin_desc in
    match content_rules combined with
    | Some found => Return (both found)
    | None =>
        (* Framework-specific development *)
        if truthy integration then
          Return (both (describe_integration (default [] integration)))
        else
          match late_rules combined with
          | Some found => Return (both found)
          | None =>
              (* Default: use source description with light editing *)
              match source with
              | Some (c :: s) =>
                  Return (Some (extract_function (c :: s)),
                          Some (value_from_context combined))
              | Some [] | None => Return (None, None)
              end
          end
    end.

Definition analyze_marketplace (m : MarketplaceRecord) (idx : nat)
  : outcome AnalysisResult :=
  let combined := combined_text m in
  let all_names := name_text m in
  (* Detect integration/framework *)
  let integration := detect_integration combined all_names (repo m) in
  (* Detect lifecycle tags *)
  let tags := detect_tags combined all_names in
  (* Generate function and value descriptions *)
  '(func, value) ← generate_descriptions m combined integration tags;
  Return {| result_repo := repo m;
            function := func;
            value := value;
            stage_lifecycle_arch := tag_list tags;
            integration := integration |}.

(** Row [i] of [table] is the first one whose keyword hits, and [name] is
    its label. *)
Definition first_hit (table : list (string * string)) (combined repo : str)
    (i : nat) (name : string) : Prop :=
  ∃ keyword,
    table !! i = Some (keyword, name) ∧
    keyword_hits keyword combined repo = true ∧
    ∀ j keyword' name',
      (j < i)%nat → table !! j = Some (keyword', name') →
      keyword_hits keyword' combined repo = false.

(** No keyword of [table] hits. *)
Definition no_hit (table : list (string * string)) (combined repo : str) : Prop :=
  ∀ keyword name,
    (keyword, name) ∈ table → keyword_hits keyword combined repo = false.

(** The plugin names, a missing one as the empty string, joined by single
    spaces and lower-cased. *)
Definition joined_plugin_names (m : MarketplaceRecord) : str :=
  str_lower (join (py " ") ((λ p, default [] (get (plugin_name p))) <$> plugins m)).

End Functions.
End Unicode.

(** [{"repo": "x/y", "description": "Phoenix LiveView components for Elixir"}] *)
Definition phoenix_record : MarketplaceRecord :=
  described (py "Phoenix LiveView components for Elixir").





(** * Properties *)

(** ** Strings *)

Section Strings.

Implicit Types (s p needle hay : list N) (c : N).

Lemma startswith_spec p s : startswith p s = true ↔ ∃ post, s = p ++ post.
Proof.
  revert s. induction p as [|a p IH]; intros s; simpl.
  - split; [by exists s | done].
  - destruct s as [|b s].
    + split; [done | by intros [post ?]].
    + rewrite andb_true_iff, N.eqb_eq, IH. split.
      * intros [-> [post ->]]. by exists post.
      * intros [post [= -> ->]]. split; [done | by exists post].
Qed.

(** [needle in hay] holds exactly when [needle] is a substring of [hay]. *)
Lemma contains_spec needle hay :
  contains needle hay = true ↔ ∃ pre post, hay = pre ++ needle ++ post.
Proof.
  induction hay as [|c hay IH]; simpl.
  - rewrite orb_false_r, startswith_spec. split.
    + intros [post ->]. by exists [], post.
    + intros (pre & post & H). symmetry in H.
      apply app_eq_nil in H as [-> [-> ->]%app_eq_nil]. by exists [].
  - rewrite orb_true_iff, startswith_spec, IH. split.
    + intros [[post ->]|(pre & post & ->)].
      * by exists [], post.
      * by exists (c :: pre), post.
    + intros ([|a pre] & post & H); simpl in H.
      * left. by exists post.
      * right. injection H as -> ->. by exists pre, post.
Qed.

Lemma has_empty_text keyword : py keyword ≠ [] → has keyword [] = false.
Proof. unfold has. by destruct (py keyword). Qed.

Lemma lstrip_id s : (∀ c, head s = Some c → isspace c = false) → lstrip s = s.
Proof. destruct s as [|c s]; [done|]. intros H. simpl. by rewrite (H c). Qed.

Lemma strip_trimmed s : trimmed s → strip s = s.
Proof.
  intros [Hh Hl]. unfold strip, rstrip.
  rewrite (lstrip_id (reverse s)).
  - rewrite reverse_involutive. by apply lstrip_id.
  - intros c. rewrite head_reverse. apply Hl.
Qed.

Lemma split_absent c s : c ∉ s → split c s = [s].
Proof.
  induction s as [|a s IH]; [done|].
  intros Hn. apply not_elem_of_cons in Hn as [Hne Hn]. simpl.
  destruct (N.eqb_spec a c); [congruence|]. by rewrite IH.
Qed.

Lemma split_head_prefix c piece rest :
  c ∉ piece → hd [] (split c (piece ++ c :: rest)) = piece.
Proof.
  induction piece as [|a piece IH]; intros Hn; simpl.
  - by rewrite N.eqb_refl.
  - apply not_elem_of_cons in Hn as [Hne Hn].
    destruct (N.eqb_spec a c); [congruence|].
    specialize (IH Hn). destruct (split c (piece ++ c :: rest)); simpl in *; by subst.
Qed.

Lemma split_head_spec c s :
  (c ∉ hd [] (split c s)) ∧
  (s = hd [] (split c s) ∨ ∃ rest, s = hd [] (split c s) ++ c :: rest).
Proof.
  induction s as [|a s [IHn IH]]; simpl.
  - split; [apply not_elem_of_nil | by left].
  - destruct (N.eqb_spec a c) as [->|Hne]; simpl.
    + split; [apply not_elem_of_nil | right; by exists s].
    + destruct (split c s) as [|piece pieces]; simpl in *.
      * split; [by apply not_elem_of_cons; split; [|apply not_elem_of_nil]|].
        destruct IH as [->|[rest ->]]; [by left | right; by exists rest].
      * split; [by apply not_elem_of_cons|].
        destruct IH as [->|[rest ->]]; [by left | right; by exists rest].
Qed.

Lemma before_first_period_split source piece :
  before_first_period source piece ↔ piece = hd [] (split 46 source).
Proof.
  split.
  - intros [Hn [->|[rest ->]]].
    + by rewrite split_absent.
    + by rewrite split_head_prefix.
  - intros ->. apply split_head_spec.
Qed.

(** The order of strings is total and transitive, so [sorted] sorts. *)
#[local] Instance str_le_total : Total str_le.
Proof.
  unfold Total, str_le. intros a.
  induction a as [|x a IH]; intros [|y b]; simpl; auto.
  rewrite !orb_true_iff, !andb_true_iff, !N.ltb_lt, !N.eqb_eq.
  destruct (N.lt_trichotomy x y) as [H|[->|H]]; [by left; left | | by right; left].
  destruct (IH b); [left | right]; by right.
Qed.

#[local] Instance str_le_trans : Transitive str_le.
Proof.
  unfold Transitive, str_le. intros a.
  induction a as [|x a IH]; intros [|y b] [|z c]; simpl; auto; try done.
  rewrite !orb_true_iff, !andb_true_iff, !N.ltb_lt, !N.eqb_eq.
  intros [H1|[-> H1]] [H2|[-> H2]]; [left; lia | by left | by left |].
  right. split; [done | by apply (IH b)].
Qed.

Lemma sorted_spec (l : list (list N)) :
  StronglySorted str_le (sorted l) ∧ sorted l ≡ₚ l.
Proof.
  split; [apply (StronglySorted_merge_sort _) | apply merge_sort_Permutation].
Qed.

(** A property of the rows of a table, checked row by row. *)
Lemma rows_checked (P : string * string → bool) (table : list (string * string)) :
  forallb P table = true → ∀ row, row ∈ table → P row = true.
Proof.
  intros H row Hrow. rewrite forallb_forall in H.
  apply H. by apply list_elem_of_In.
Qed.

Lemma in_range_spec lo hi c : in_range lo hi c = true ↔ lo ≤ c ∧ c ≤ hi.
Proof. unfold in_range. by rewrite andb_true_iff, !N.leb_le. Qed.

Lemma in_range_out lo hi c : c < lo ∨ hi < c → in_range lo hi c = false.
Proof. intros H. apply not_true_is_false. rewrite in_range_spec. lia. Qed.

Lemma lower_char_fixed c :
  in_range 65 90 c = false →
  in_range 192 214 c = false → in_range 216 222 c = false →
  lower_char c = c.
Proof. unfold lower_char. by intros -> -> ->. Qed.

End Strings.

(** Apply a check that runs over the rows of a table to one of its rows. *)
Ltac check_row P H :=
  apply (rows_checked P) in H; [|by vm_compute].

(** ** Regular expressions *)

Section Patterns.

Implicit Types (s source group : list N).

Lemma lazy_until_cjk_spec s g :
  lazy_until_cjk s = Some g ↔
  ∃ body t rest, s = body ++ t :: rest ∧ g = body ++ [t] ∧
    is_cjk_terminator t = true ∧
    ∀ x, x ∈ body → is_cjk_terminator x = false ∧ x ≠ 10.
Proof.
  split.
  - revert g. induction s as [|c s IH]; intros g; simpl; [done|].
    destruct (is_cjk_terminator c) eqn:Hc.
    + intros [= <-]. exists [], c, s.
      repeat split; try done; by apply elem_of_nil in H.
    + destruct (N.eqb_spec c 10) as [|Hnl]; [done|].
      destruct (lazy_until_cjk s) as [g'|]; [|done]. intros [= <-].
      destruct (IH g' eq_refl) as (body & t & rest & -> & -> & Ht & Hbody).
      exists (c :: body), t, rest. repeat split; try done;
        apply elem_of_cons in H as [->|H]; try done; by apply Hbody.
  - intros (body & t & rest & -> & -> & Ht & Hbody).
    induction body as [|c body IH]; simpl.
    + by rewrite Ht.
    + destruct (Hbody c) as [-> Hnl]; [by left|].
      destruct (N.eqb_spec c 10); [done|].
      rewrite IH; [done|]. intros x Hx. apply Hbody. by right.
Qed.

Lemma re_match_cjk_spec source group :
  re_match_cjk source = Some group ↔ cjk_prefix source group.
Proof.
  unfold re_match_cjk, cjk_prefix. split.
  - destruct source as [|c s]; [done|].
    destruct (N.eqb_spec c 10); [done|].
    destruct (lazy_until_cjk s) as [g|] eqn:Hg; [|done]. intros [= <-].
    apply lazy_until_cjk_spec in Hg as (body & t & rest & -> & -> & Ht & Hbody).
    by exists c, body, t, rest.
  - intros (c & body & t & rest & -> & -> & Ht & Hc & Hbody).
    destruct (N.eqb_spec c 10); [done|].
    assert (lazy_until_cjk (body ++ t :: rest) = Some (body ++ [t])) as ->; [|done].
    apply lazy_until_cjk_spec. by exists body, t, rest.
Qed.

Lemma span_sentence_spec s :
  s = (span_sentence s).1 ++ (span_sentence s).2 ∧
  (∀ x, x ∈ (span_sentence s).1 → is_terminator x = false) ∧
  (∀ t, head (span_sentence s).2 = Some t → is_terminator t = true).
Proof.
  induction s as [|c s (IH1 & IH2 & IH3)]; simpl.
  - split; [done|]. split; [|done]. by intros x Hx%elem_of_nil.
  - destruct (is_terminator c) eqn:Hc; simpl.
    + split; [done|]. split; [by intros x Hx%elem_of_nil | by intros t [= <-]].
    + destruct (span_sentence s) as [run rest]; simpl in *.
      split; [by f_equal|]. split; [|done].
      intros x [->|Hx]%elem_of_cons; auto.
Qed.

Lemma span_sentence_run run t rest :
  (∀ x, x ∈ run → is_terminator x = false) → is_terminator t = true →
  span_sentence (run ++ t :: rest) = (run, t :: rest).
Proof.
  intros Hrun Ht. induction run as [|c run IH]; simpl.
  - by rewrite Ht.
  - rewrite (Hrun c) by left.
    rewrite IH; [done|]. intros x Hx. apply Hrun. by right.
Qed.

Lemma span_sentence_plain s :
  (∀ c, c ∈ s → is_terminator c = false) → span_sentence s = (s, []).
Proof.
  induction s as [|a s IH]; [done|].
  intros H. simpl. rewrite (H a) by left.
  rewrite IH; [done|]. intros c Hc. apply H. by right.
Qed.

Lemma re_match_sentence_plain s :
  s ≠ [] → (∀ c, c ∈ s → is_terminator c = false) → re_match_sentence s = Some s.
Proof.
  intros Hs H. unfold re_match_sentence. rewrite span_sentence_plain by done.
  destruct s; [done|]. by rewrite app_nil_r.
Qed.

Lemma re_match_sentence_spec source group :
  re_match_sentence source = Some group ↔ sentence_prefix source group.
Proof.
  unfold re_match_sentence, sentence_prefix. split.
  - destruct (span_sentence_spec source) as (Heq & Hrun & Hrest).
    destruct (span_sentence source) as [run rest]; simpl in *.
    destruct run as [|c run]; [done|]. intros [= <-].
    exists (c :: run). split; [done|]. split; [done|].
    destruct rest as [|t rest].
    + left. by rewrite !app_nil_r in *.
    + right. rewrite (Hrest t eq_refl). exists t, rest.
      split; [by apply Hrest | done].
  - intros (run & Hne & Hrun & [[-> ->]|(t & rest & Ht & -> & ->)]).
    + rewrite span_sentence_plain by done.
      destruct run; [done|]. by rewrite app_nil_r.
    + rewrite span_sentence_run by done.
      destruct run; [done|]. by rewrite Ht.
Qed.

End Patterns.

(** ** Text aggregation *)

Section Aggregation.

Lemma append_if_get f l : append_if (get f) l = l ++ present f.
Proof. destruct f as [| |[|c s]]; simpl; by rewrite ?app_nil_r. Qed.

Lemma append_if_get_default f l : append_if (get_default f []) l = l ++ present f.
Proof. destruct f as [| |[|c s]]; simpl; by rewrite ?app_nil_r. Qed.

Lemma all_info_skills ss t :
  all_info (foldl collect_skill t ss) = all_info t ++ item_texts ss.
Proof.
  revert t. induction ss as [|s ss IH]; intros t; simpl.
  - by rewrite app_nil_r.
  - rewrite IH. simpl. by rewrite append_if_get, <- app_assoc.
Qed.

Lemma all_info_commands cs t :
  all_info (foldl collect_command t cs) = all_info t ++ item_texts cs.
Proof.
  revert t. induction cs as [|c cs IH]; intros t; simpl.
  - by rewrite app_nil_r.
  - rewrite IH. simpl. by rewrite append_if_get, <- app_assoc.
Qed.

Lemma all_info_plugin p t :
  all_info (collect_plugin t p) = all_info t ++ plugin_texts p.
Proof.
  unfold collect_plugin, plugin_texts.
  rewrite all_info_commands, all_info_skills. simpl.
  by rewrite append_if_get, <- !app_assoc.
Qed.

Lemma all_info_plugins ps t :
  all_info (foldl collect_plugin t ps) = all_info t ++ (ps ≫= plugin_texts).
Proof.
  revert t. induction ps as [|p ps IH]; intros t; simpl.
  - by rewrite app_nil_r.
  - by rewrite IH, all_info_plugin, <- app_assoc.
Qed.

Lemma all_info_collect m : all_info (collect m) = spec_all_info m.
Proof.
  unfold collect, spec_all_info. rewrite all_info_plugins. simpl.
  by rewrite append_if_get_default.
Qed.

Lemma item_texts_same xs ys :
  Forall2 same_item_description xs ys → item_texts xs = item_texts ys.
Proof.
  induction 1 as [|x y xs ys Hxy _ IH]; [done|].
  unfold item_texts in *. rewrite !bind_cons. by rewrite Hxy, IH.
Qed.

Lemma spec_all_info_same m m' :
  same_descriptions m m' → spec_all_info m = spec_all_info m'.
Proof.
  intros [Hd Hp]. unfold spec_all_info. rewrite Hd. f_equal.
  induction Hp as [|p q ps qs (Hpd & Hs & Hc) _ IH]; [done|].
  rewrite !bind_cons, IH. unfold plugin_texts.
  by rewrite Hpd, (item_texts_same _ _ Hs), (item_texts_same _ _ Hc).
Qed.

Lemma item_texts_named_only names : item_texts (named_only names) = [].
Proof.
  induction names as [|n names IH]; [done|].
  unfold item_texts, named_only in *. by rewrite fmap_cons, bind_cons, IH.
Qed.

Lemma combined_text_spec m :
  combined_text m = lower (join (py " ") (spec_all_info m)).
Proof. unfold combined_text. by rewrite all_info_collect. Qed.

Lemma combined_text_same m m' :
  same_descriptions m m' → combined_text m = combined_text m'.
Proof. intros Hs. by rewrite !combined_text_spec, (spec_all_info_same _ _ Hs). Qed.

End Aggregation.

(** ** Integration classification *)

(** Every keyword of the table is lower-case and not empty, so that a
    substring test against lower-cased text ignores case. *)
Lemma integrations_keywords :
  ∀ row, row ∈ integrations → py row.1 ≠ [] ∧ lower (py row.1) = py row.1.
Proof.
  intros row Hrow.
  check_row (λ row : string * string,
               negb (bool_decide (py row.1 = []))
               && bool_decide (lower (py row.1) = py row.1)) Hrow.
  apply andb_true_iff in Hrow as [H1 H2].
  apply negb_true_iff, bool_decide_eq_false in H1.
  by apply bool_decide_eq_true in H2.
Qed.

(** C4, at the failing input: the description "Phoenix LiveView components
    for Elixir" holds the framework keyword "phoenix" and the keyword
    "elixir" of its language.  The table lists ("elixir", "Elixir") before
    ("phoenix", "Elixir/Phoenix"), so the classifier answers with the
    language's label, and the generator with the sentences made from the
    label "Elixir", not with the pair it keeps for "Elixir/Phoenix"; the
    framework's label is given only to a text without "elixir". *)
Theorem phoenix_beside_elixir_is_labelled_elixir (idx : nat) :
  integrations !! 83%nat = Some ("elixir", "Elixir")%string
  ∧ integrations !! 84%nat = Some ("phoenix", "Elixir/Phoenix")%string
  ∧ combined_text phoenix_record = py "phoenix liveview components for elixir"
  ∧ has "phoenix" (combined_text phoenix_record) = true
  ∧ has "elixir" (combined_text phoenix_record) = true
  ∧ analyze_marketplace phoenix_record idx =
    Return {| result_repo := py "x/y";
              function := Some (py "Develop Elixir applications with best practices and patterns.");
              value := Some (py "Build quality Elixir projects faster.");
              stage_lifecycle_arch := [py "general"];
              integration := Some (py "Elixir") |}
  ∧ analyze_marketplace (described (py "Phoenix LiveView components")) idx =
    Return {| result_repo := py "x/y";
              function := Some (py "Design and build Elixir/Phoenix applications with OTP patterns.");
              value := Some (py "Create scalable, fault-tolerant systems.");
              stage_lifecycle_arch := [py "general"];
              integration := Some (py "Elixir/Phoenix") |}.
Proof. repeat split; by vm_compute. Qed.

(** ** Description generation: the extraction from the source text *)

Lemma truncate_long func :
  (150 < length func)%nat →
  truncate func = take 147 func ++ py "..." ∧ length (truncate func) = 150%nat.
Proof.
  intros H. unfold truncate.
  destruct (Nat.ltb_spec 150 (length func)); [|lia].
  split; [done|]. by rewrite length_app, length_take_le by lia.
Qed.

Lemma close_sentence_dots l : close_sentence (l ++ py "...") = l ++ py "...".
Proof.
  unfold close_sentence.
  replace (l ++ py "...") with ((l ++ py "..") ++ [46]) by (by rewrite <- app_assoc).
  by rewrite last_snoc.
Qed.

Lemma replicate_plain n c :
  is_terminator c = false → ∀ x, x ∈ replicate n c → is_terminator x = false.
Proof. intros Hc x [-> _]%elem_of_replicate. exact Hc. Qed.

(** C2 (amended): a function sentence longer than 150 characters is cut to
    its first 147 characters followed by three periods, 150 characters in
    all; so a source of 200 characters with no sentence terminator and no
    white space at either end gives a function of length exactly 150. *)
Theorem truncation_is_150 (source : list N) :
  ((150 < length (first_sentence_of source))%nat →
     extract_function source = take 147 (first_sentence_of source) ++ py "..."
     ∧ length (extract_function source) = 150%nat)
  ∧ (length source = 200%nat →
     (∀ c, c ∈ source → is_terminator c = false) →
     trimmed source →
     extract_function source = take 147 source ++ py "..."
     ∧ length (extract_function source) = 150%nat).
Proof.
  assert (Hgen : (150 < length (first_sentence_of source))%nat →
     extract_function source = take 147 (first_sentence_of source) ++ py "..."
     ∧ length (extract_function source) = 150%nat).
  { intros Hlen. unfold extract_function.
    destruct (truncate_long _ Hlen) as [-> Hl].
    rewrite close_sentence_dots. split; [done|].
    by rewrite length_app, length_take_le by lia. }
  split; [exact Hgen|].
  intros Hlen Hplain Htrim.
  assert (Hfs : first_sentence_of source = source).
  { unfold first_sentence_of.
    rewrite split_absent.
    2:{ intros Hin. by specialize (Hplain _ Hin). }
    simpl hd. rewrite (strip_trimmed source Htrim), Hlen. simpl.
    rewrite re_match_sentence_plain; [by apply strip_trimmed| |done].
    by intros ->. }
  rewrite Hfs in Hgen. apply Hgen. lia.
Qed.

Lemma truncation_is_150_witness :
  length letters_200 = 200%nat
  ∧ extract_function letters_200 = take 147 letters_200 ++ py "..."
  ∧ length (extract_function letters_200) = 150%nat.
Proof.
  split; [reflexivity|].
  apply (proj2 (truncation_is_150 letters_200)).
  - reflexivity.
  - by apply replicate_plain.
  - split; intros c Hc; vm_compute in Hc; by injection Hc as <-.
Defined.

(** C2 as the specification states it fails: 200 letters give a function
    of 150 characters, not 148; and 5 letters followed by 195 spaces, also
    200 characters without a terminator, give the 6 characters "aaaaa.". *)
Lemma truncation_is_not_148 :
  (length letters_200 = 200%nat ∧
   forallb (λ c, negb (is_terminator c)) letters_200 = true ∧
   ∃ r f, analyze_marketplace (described letters_200) 0 = Return r ∧
          function r = Some f ∧ length f = 150%nat ∧ length f ≠ 148%nat)
  ∧ (length padded_200 = 200%nat ∧
     forallb (λ c, negb (is_terminator c)) padded_200 = true ∧
     ∃ r, analyze_marketplace (described padded_200) 0 = Return r ∧
          function r = Some (py "aaaaa.")).
Proof.
  split.
  - split; [reflexivity|]. split; [by vm_compute|].
    eexists _, _. split; [by vm_compute|]. split; [reflexivity|].
    split; [by vm_compute|]. by vm_compute.
  - split; [reflexivity|]. split; [by vm_compute|].
    eexists. split; [by vm_compute|]. reflexivity.
Qed.

(** C3 (amended): the first sentence is the part of [source] before its
    first period, trimmed; the characters [!] and [?] do not split it.
    Exactly when it is shorter than 10 characters while [source] is longer
    than 20, the CJK pattern is tried: the result is its match, trimmed,
    or the trimmed [source] when it does not match.  Otherwise the result
    is the match of the sentence pattern, trimmed, or the trimmed
    [source]. *)
Theorem first_sentence_splits_at_period (source piece : list N) :
  before_first_period source piece →
  ((length (strip piece) < 10 ∧ 20 < length source)%nat →
     (∀ group, cjk_prefix source group → first_sentence_of source = strip group) ∧
     ((¬ ∃ group, cjk_prefix source group) → first_sentence_of source = strip source))
  ∧ (¬ (length (strip piece) < 10 ∧ 20 < length source)%nat →
     (∀ group, sentence_prefix source group → first_sentence_of source = strip group) ∧
     ((¬ ∃ group, sentence_prefix source group) → first_sentence_of source = strip source)).
Proof.
  intros ->%before_first_period_split. unfold first_sentence_of.
  split; intros Hcond.
  - destruct Hcond as [H1 H2].
    destruct (Nat.ltb_spec (length (strip (hd [] (split 46 source)))) 10); [|lia].
    destruct (Nat.ltb_spec 20 (length source)); [|lia]. simpl.
    split.
    + intros group Hg%re_match_cjk_spec. by rewrite Hg.
    + intros Hno. destruct (re_match_cjk source) as [g|] eqn:Hg; [|done].
      exfalso. apply Hno. exists g. by apply re_match_cjk_spec.
  - assert ((length (strip (hd [] (split 46 source))) <? 10)%nat
            && (20 <? length source)%nat = false) as ->.
    { apply andb_false_iff.
      destruct (Nat.ltb_spec (length (strip (hd [] (split 46 source)))) 10);
        destruct (Nat.ltb_spec 20 (length source)); auto. exfalso. auto. }
    split.
    + intros group Hg%re_match_sentence_spec. by rewrite Hg.
    + intros Hno. destruct (re_match_sentence source) as [g|] eqn:Hg; [|done].
      exfalso. apply Hno. exists g. by apply re_match_sentence_spec.
Qed.

Lemma first_sentence_splits_at_period_witness :
  before_first_period cjk_source (py "AI")
  ∧ cjk_prefix cjk_source cjk_sentence
  ∧ first_sentence_of cjk_source = strip cjk_sentence.
Proof.
  assert (Hpiece : before_first_period cjk_source (py "AI")).
  { apply before_first_period_split. reflexivity. }
  assert (Hgroup : cjk_prefix cjk_source cjk_sentence).
  { apply re_match_cjk_spec. reflexivity. }
  split; [exact Hpiece|]. split; [exact Hgroup|].
  apply (proj1 (first_sentence_splits_at_period cjk_source (py "AI") Hpiece)).
  - vm_compute. lia.
  - exact Hgroup.
Defined.

(** C3 as the specification states it fails: in "Wow! This is a great
    tool for everyone." the text before the first Latin terminator is
    "Wow", shorter than 10 characters in a source longer than 20, yet the
    code does not try the CJK pattern and fall back to the whole source: it
    splits at the period and returns "Wow!". *)
Lemma first_sentence_ignores_exclamation :
  before_latin_terminator wow_source = py "Wow" ∧
  (20 < length wow_source)%nat ∧
  spec_cjk_reattempt wow_source = true ∧
  re_match_cjk wow_source = None ∧
  spec_first_sentence_of wow_source = py "Wow! This is a great tool for everyone." ∧
  first_sentence_of wow_source = py "Wow!" ∧
  first_sentence_of wow_source ≠ spec_first_sentence_of wow_source.
Proof.
  split; [by vm_compute|]. split; [vm_compute; lia|].
  repeat (split; [by vm_compute|]).
  intros H. by vm_compute in H.
Qed.

(** The sentence examples of the specification. *)
Example latin_sentence :
  extract_function (py "Build great things. More text here.")
  = py "Build great things.".
Proof. by vm_compute. Qed.

Example cjk_sentence_example :
  extract_function
    [26500; 24314; 20255; 22823; 30340; 19996; 35199; 12290;
     26356; 22810; 25991; 23383; 12290]
  = [26500; 24314; 20255; 22823; 30340; 19996; 35199; 12290].
Proof. by vm_compute. Qed.

(** ** Description generation: records without text *)

Section NoText.

Lemma truthy_get_default f : truthy (get_default f []) = truthy (get f).
Proof. by destruct f. Qed.

Lemma first_plugin_description_truthy ps d :
  first_plugin_description ps = Some d → truthy (Some d) = true.
Proof.
  induction ps as [|p ps IH]; simpl; [done|].
  destruct (truthy (get (plugin_description p))) eqn:Ht; [|done].
  intros H. by rewrite H in Ht.
Qed.

Lemma first_plugin_description_None ps :
  first_plugin_description ps = None ↔
  ∀ p, p ∈ ps → truthy (get (plugin_description p)) = false.
Proof.
  induction ps as [|p ps IH]; simpl.
  - split; [by intros _ p Hp%elem_of_nil | done].
  - destruct (truthy (get (plugin_description p))) eqn:Ht.
    + split.
      * intros H. destruct (get (plugin_description p)); done.
      * intros H. rewrite (H p) in Ht by left. done.
    + rewrite IH. split.
      * intros H q [->|Hq]%elem_of_cons; auto.
      * intros H q Hq. apply H. by right.
Qed.

Lemma no_text_test m :
  no_text m ↔
  negb (truthy (get_default (description m) []))
  && negb (truthy (first_plugin_description (plugins m))) = true.
Proof.
  unfold no_text. rewrite truthy_get_default, andb_true_iff, !negb_true_iff.
  rewrite <- first_plugin_description_None.
  split; intros [H1 H2]; split; try done.
  - by rewrite H2.
  - destruct (first_plugin_description (plugins m)) as [d|] eqn:Hd; [|done].
    by rewrite (first_plugin_description_truthy _ _ Hd) in H2.
Qed.

Lemma mapM_names (ps : list PluginRecord) :
  (∀ p, p ∈ ps → plugin_name p ≠ Null) →
  mapM id ((λ p, get_default (plugin_name p) []) <$> ps)
  = Some ((λ p, default [] (get (plugin_name p))) <$> ps).
Proof.
  induction ps as [|p ps IH]; intros H; [done|].
  rewrite !fmap_cons. cbn [mapM]. rewrite IH by (intros q Hq; apply H; by right).
  specialize (H p ltac:(by left)). by destruct (plugin_name p).
Qed.

Lemma mapM_names_Some (ps : list PluginRecord) (parts : list (list N)) :
  mapM id ((λ p, get_default (plugin_name p) []) <$> ps) = Some parts →
  parts = (λ p, default [] (get (plugin_name p))) <$> ps.
Proof.
  revert parts. induction ps as [|p ps IH]; intros parts; [by intros [= <-]|].
  rewrite !fmap_cons. cbn [mapM].
  destruct (plugin_name p) eqn:Hn; simpl; try done;
  destruct (mapM id _) as [rest|] eqn:Hm; simpl; try done; intros [= <-];
  by rewrite (IH rest eq_refl).
Qed.



Lemma names_record_no_text names : no_text (names_record names).
Proof.
  split; [done|]. intros p Hp. unfold names_record in Hp. cbn [plugins] in Hp.
  apply list_elem_of_fmap in Hp as (n & -> & _). done.
Qed.

End NoText.

(** X1: the name heuristics, on a record without text none of whose plugins
    holds [null] for a name: the three tests in their order on the joined
    plugin names, and no answer when none applies or there is no plugin. *)
Lemma name_heuristics (m : MarketplaceRecord) (combined : list N)
    (integration : option (list N)) (tags : gset (list N)) :
  no_text m → names_are_strings m →
  ∃ result,
    generate_descriptions m combined integration tags = Return result ∧
    let names := joined_plugin_names m in
    (plugins m = [] → result = (None, None)) ∧
    (has "git" names = true ∨ has "commit" names = true →
       result = git_workflow_pair) ∧
    (has "git" names = false → has "commit" names = false →
       has "review" names = true → result = code_review_pair) ∧
    (has "git" names = false → has "commit" names = false →
       has "review" names = false → has "test" names = true →
       result = testing_pair) ∧
    (has "git" names = false → has "commit" names = false →
       has "review" names = false → has "test" names = false →
       result = (None, None)).
Proof.
  intros Hno%no_text_test Hnames. unfold generate_descriptions. rewrite Hno.
  unfold joined_plugin_names.
  destruct (plugins m) as [|p ps] eqn:Hps.
  - exists (None, None). split; [done|].
    vm_compute. repeat split; intros; intuition congruence.
  - rewrite <- Hps in *.
    destruct ((λ p, get_default (plugin_name p) []) <$> plugins m)
      as [|n ns] eqn:Hmap; [by rewrite Hps in Hmap|].
    rewrite <- Hmap. unfold join_values. rewrite (mapM_names _ Hnames).
    eexists. split; [reflexivity|]. cbn zeta.
    set (names := lower _). unfold guess_from_names.
    split; [by rewrite Hps|].
    split; [intros [->| ->]; [done|by destruct (has "git" names)]|].
    split; [by intros -> -> ->|]. split; [by intros -> -> -> ->|].
    by intros -> -> -> ->.
Qed.

Lemma name_heuristics_witness :
  ∃ result,
    generate_descriptions commit_helper_record [] None ∅ = Return result
    ∧ result = git_workflow_pair.
Proof.
  destruct (name_heuristics commit_helper_record [] None ∅)
    as (result & Hret & _ & Hgit & _).
  - apply names_record_no_text.
  - intros p Hp. vm_compute in Hp. apply list_elem_of_singleton in Hp as ->. done.
  - exists result. split; [exact Hret|]. apply Hgit. right. reflexivity.
Defined.



(** The no-text scenario of the specification. *)
Example commit_helper_scenario (idx : nat) :
  ∃ r, analyze_marketplace commit_helper_record idx = Return r
       ∧ (function r, value r) = git_workflow_pair.
Proof. eexists. split; [by vm_compute|]. reflexivity. Qed.

(** C7, at the failing input: the record has no text and its plugin names
    hold "commit", so the specification gives it the canned git-workflow
    pair; the second plugin holds [null] for its name, the join of the
    names raises TypeError and the generator returns nothing. *)
Theorem commit_name_beside_null_name_raises :
  no_text commit_and_null_record
  ∧ has "commit" (joined_plugin_names commit_and_null_record) = true
  ∧ ∀ combined integration tags,
      generate_descriptions commit_and_null_record combined integration tags
      = Raise TypeError.
Proof. split; [apply names_record_no_text|]. split; [by vm_compute | done]. Qed.

(** C8, at the failing input: on the record whose one plugin holds [null]
    for its name the transform raises TypeError instead of returning a
    result with the pair absent. *)
Theorem null_plugin_name_raises (idx : nat) :
  analyze_marketplace null_name_record idx = Raise TypeError.
Proof. done. Qed.

(** ** The whole transform *)

(** C1 (amended): on the record [{repo: "x/y", description: "A tool for
    Kubernetes deployment automation."}] the transform returns the
    integration "Kubernetes", the tag list ["general"], the canned
    Kubernetes function sentence and the canned Kubernetes value
    sentence. *)
Theorem kubernetes_scenario (idx : nat) :
  analyze_marketplace kubernetes_record idx =
  Return {| result_repo := py "x/y";
            function := Some (py "Deploy and manage Kubernetes applications and configurations.");
            value := Some (py "Simplify container orchestration and deployment.");
            stage_lifecycle_arch := [py "general"];
            integration := Some (py "Kubernetes") |}.
Proof. by vm_compute. Qed.

(** C1 as the specification states it fails: the tag list of the result
    does not hold "devops", and the function is not the description
    itself. *)
Lemma kubernetes_scenario_as_claimed_fails :
  ∃ r, analyze_marketplace kubernetes_record 0 = Return r
       ∧ integration r = Some (py "Kubernetes")
       ∧ value r = Some (py "Simplify container orchestration and deployment.")
       ∧ (py "devops" ∉ stage_lifecycle_arch r)
       ∧ function r ≠ Some (py "A tool for Kubernetes deployment automation.").
Proof.
  eexists. split; [by vm_compute|]. split; [reflexivity|]. split; [reflexivity|].
  split.
  - cbn [stage_lifecycle_arch]. intros H%list_elem_of_singleton. by vm_compute in H.
  - cbn [function]. intros H. by vm_compute in H.
Qed.

Lemma first_plugin_description_same ps qs :
  Forall2 (λ p q, plugin_name p = plugin_name q ∧
                  plugin_description p = plugin_description q ∧
                  Forall2 same_item_description (skills p) (skills q) ∧
                  Forall2 same_item_description (commands p) (commands q)) ps qs →
  first_plugin_description ps = first_plugin_description qs
  ∧ (λ p, get_default (plugin_name p) []) <$> ps
    = (λ p, get_default (plugin_name p) []) <$> qs.
Proof.
  induction 1 as [|p q ps qs (Hn & Hd & _) _ [IH1 IH2]]; [done|].
  rewrite !fmap_cons, IH2, Hn. cbn [first_plugin_description].
  by rewrite Hd, IH1.
Qed.

Lemma same_but_item_names_descriptions m m' :
  same_but_item_names m m' → same_descriptions m m'.
Proof.
  intros (_ & _ & Hd & Hp). split; [done|].
  eapply Forall2_impl; [exact Hp|]. simpl. by intros p q (_ & ? & ? & ?).
Qed.

(** C9: two records that differ in the names of skills and commands only
    get the same outcome of the transform: the same result, or the same
    exception. *)
Theorem item_names_do_not_matter (m m' : MarketplaceRecord) (idx : nat) :
  same_but_item_names m m' →
  analyze_marketplace m idx = analyze_marketplace m' idx.
Proof.
  intros Hsame.
  pose proof (same_but_item_names_descriptions _ _ Hsame) as Hdesc.
  pose proof (combined_text_same _ _ Hdesc) as Hcomb.
  destruct Hsame as (Hrepo & _ & Hd & Hp).
  destruct (first_plugin_description_same _ _ Hp) as [Hfirst Hnames].
  unfold analyze_marketplace, detect_integration, detect_tags, generate_descriptions.
  by rewrite Hcomb, Hrepo, Hd, Hfirst, Hnames.
Qed.

Lemma item_names_do_not_matter_witness :
  same_but_item_names (skill_named (Str (py "git-commit"))) (skill_named Null)
  ∧ name_text (skill_named (Str (py "git-commit"))) ≠ name_text (skill_named Null)
  ∧ analyze_marketplace (skill_named (Str (py "git-commit"))) 0
    = analyze_marketplace (skill_named Null) 0.
Proof.
  assert (H : same_but_item_names (skill_named (Str (py "git-commit")))
                                  (skill_named Null)).
  { repeat split. repeat constructor. }
  split; [exact H|]. split; [by vm_compute|].
  exact (item_names_do_not_matter _ _ 0%nat H).
Defined.

(** * Further properties of the code *)

(** ** The aggregated names *)

Section Names.

Lemma collect_skills_fold ss t :
  foldl collect_skill t ss =
  {| all_info := all_info t ++ item_texts ss;
     plugin_names := plugin_names t;
     skill_names := skill_names t ++ item_names ss;
     command_names := command_names t |}.
Proof.
  revert t. induction ss as [|s ss IH]; intros t.
  - destruct t. simpl. by rewrite !app_nil_r.
  - cbn [foldl]. rewrite IH. unfold collect_skill.
    cbn [all_info plugin_names skill_names command_names].
    unfold item_texts, item_names. rewrite !bind_cons.
    by rewrite !append_if_get, <- !app_assoc.
Qed.

Lemma collect_commands_fold cs t :
  foldl collect_command t cs =
  {| all_info := all_info t ++ item_texts cs;
     plugin_names := plugin_names t;
     skill_names := skill_names t;
     command_names := command_names t ++ item_names cs |}.
Proof.
  revert t. induction cs as [|c cs IH]; intros t.
  - destruct t. simpl. by rewrite !app_nil_r.
  - cbn [foldl]. rewrite IH. unfold collect_command.
    cbn [all_info plugin_names skill_names command_names].
    unfold item_texts, item_names. rewrite !bind_cons.
    by rewrite !append_if_get, <- !app_assoc.
Qed.

Lemma collect_plugins_fold ps t :
  foldl collect_plugin t ps =
  {| all_info := all_info t ++ (ps ≫= plugin_texts);
     plugin_names := plugin_names t ++ (ps ≫= (λ p, present (plugin_name p)));
     skill_names := skill_names t ++ (ps ≫= (λ p, item_names (skills p)));
     command_names := command_names t ++ (ps ≫= (λ p, item_names (commands p))) |}.
Proof.
  revert t. induction ps as [|p ps IH]; intros t.
  - destruct t. simpl. by rewrite !app_nil_r.
  - cbn [foldl]. rewrite IH. unfold collect_plugin.
    rewrite collect_commands_fold, collect_skills_fold.
    cbn [all_info plugin_names skill_names command_names].
    rewrite !bind_cons. unfold plugin_texts.
    by rewrite !append_if_get, <- !app_assoc.
Qed.

End Names.

(** ** When the aggregated text is empty *)

Section EmptyText.

Lemma present_nonempty f s : s ∈ present f → s ≠ [].
Proof.
  destruct f as [| |[|c t]]; simpl; try by intros ?%elem_of_nil.
  by intros ->%list_elem_of_singleton.
Qed.

Lemma present_truthy f : present f = [] ↔ truthy (get f) = false.
Proof. by destruct f as [| |[|c s]]. Qed.

Lemma join_nil sep (parts : list (list N)) :
  (∀ s, s ∈ parts → s ≠ []) → join sep parts = [] → parts = [].
Proof.
  destruct parts as [|p parts]; [done|]. intros H.
  assert (p ≠ []) by (apply H; by left).
  destruct parts; simpl; [done|]. by destruct p.
Qed.

Lemma lower_nil s : lower s = [] ↔ s = [].
Proof. unfold lower. split; [apply fmap_nil_inv | by intros ->]. Qed.

Lemma bind_nil_iff {A B} (f : A → list B) (l : list A) :
  l ≫= f = [] ↔ ∀ x, x ∈ l → f x = [].
Proof.
  induction l as [|a l IH].
  - split; [by intros _ x ?%elem_of_nil | done].
  - rewrite bind_cons. split.
    + intros [Ha Hl]%app_eq_nil x [->|Hx]%elem_of_cons; [done|]. by apply IH.
    + intros H. rewrite (H a) by left. apply IH. intros x Hx. apply H. by right.
Qed.

Lemma spec_all_info_nonempty m s : s ∈ spec_all_info m → s ≠ [].
Proof.
  unfold spec_all_info. intros [H|H]%elem_of_app; [by eapply present_nonempty|].
  apply list_elem_of_bind in H as (p & H & _). unfold plugin_texts in H.
  apply elem_of_app in H as [H|H]; [by eapply present_nonempty|].
  apply elem_of_app in H as [H|H];
    apply list_elem_of_bind in H as (i & H & _); by eapply present_nonempty.
Qed.

Lemma spec_all_info_nil m : spec_all_info m = [] ↔ no_description_anywhere m.
Proof.
  unfold spec_all_info, no_description_anywhere. split.
  - intros [Hd Hp]%app_eq_nil. split; [done|].
    rewrite bind_nil_iff in Hp. intros p Hin. specialize (Hp p Hin).
    unfold plugin_texts in Hp.
    apply app_eq_nil in Hp as [H1 [H2 H3]%app_eq_nil].
    unfold item_texts in *. rewrite bind_nil_iff in H2, H3. done.
  - intros [Hd Hp]. rewrite Hd. simpl. apply bind_nil_iff. intros p Hin.
    destruct (Hp p Hin) as (H1 & H2 & H3). unfold plugin_texts, item_texts.
    rewrite H1. simpl.
    assert (skills p ≫= (λ i, present (item_description i)) = []) as ->
      by (by apply bind_nil_iff).
    by apply bind_nil_iff.
Qed.

Lemma combined_text_nil m : combined_text m = [] ↔ no_description_anywhere m.
Proof.
  rewrite combined_text_spec, lower_nil, <- spec_all_info_nil.
  split; [apply join_nil, spec_all_info_nonempty | by intros ->].
Qed.

Lemma no_description_no_text m : no_description_anywhere m → no_text m.
Proof.
  intros [Hd Hp]. split; [by apply present_truthy|].
  intros p Hin. apply present_truthy. by destruct (Hp p Hin).
Qed.

End EmptyText.

(** X5: combined is the empty string exactly when no description of the
    record, of a plugin, of a skill or of a command is a string that is
    not empty. *)
Theorem combined_text_empty_iff (m : MarketplaceRecord) :
  combined_text m = [] ↔ no_description_anywhere m.
Proof. apply combined_text_nil. Qed.

(** ** The labels of the classifier *)

Section Labels.

Variables (combined repo : list N).

Lemma scan_label table label :
  scan_integrations table combined repo = Some label →
  ∃ keyword name,
    (keyword, name) ∈ table ∧ keyword_hits keyword combined repo = true
    ∧ label = py name.
Proof.
  induction table as [|[kw nm] table IH]; simpl; [done|].
  destruct (keyword_hits kw combined repo) eqn:Hhit.
  - intros [= <-]. exists kw, nm. split; [by left | done].
  - intros (k & n & Hin & Hk & ->)%IH. exists k, n. split; [by right | done].
Qed.

Lemma scan_app pre post :
  scan_integrations (pre ++ post) combined repo =
  match scan_integrations pre combined repo with
  | Some label => Some label
  | None => scan_integrations post combined repo
  end.
Proof.
  induction pre as [|[kw nm] pre IH]; simpl; [done|].
  by destruct (keyword_hits kw combined repo).
Qed.

Lemma generic_integration_label label :
  generic_integration combined = Some label →
  ∃ name, name ∈ generic_labels ∧ label = py name.
Proof.
  unfold generic_integration, generic_labels.
  repeat case_match; intros [= <-]; eexists; (split; [|reflexivity]); set_solver.
Qed.

Lemma contains_prefix (a b hay : list N) :
  contains (a ++ b) hay = true → contains a hay = true.
Proof.
  rewrite !contains_spec. intros (pre & post & ->).
  exists pre, (b ++ post). by rewrite <- app_assoc.
Qed.

Lemma laravel_forge_hits :
  keyword_hits "laravel forge" combined repo = true →
  keyword_hits "laravel" combined repo = true.
Proof.
  unfold keyword_hits, has. rewrite !orb_true_iff.
  change (py "laravel forge") with (py "laravel" ++ py " forge").
  intros [H|H]; [left | right]; by eapply contains_prefix.
Qed.

End Labels.

Lemma integrations_labels_nonempty :
  ∀ row, row ∈ integrations → py row.2 ≠ [].
Proof.
  intros row Hrow.
  check_row (λ row : string * string, negb (bool_decide (py row.2 = []))) Hrow.
  by apply negb_true_iff, bool_decide_eq_false in Hrow.
Qed.

(** X6: a label that the classifier returns is a label of the keyword table
    or one of React, Python, TypeScript, .NET, Go and Swift, and it is never
    the empty string; so the test [elif integration:] of the generator
    holds exactly when a label was found. *)
Theorem detected_label_is_known (combined all_names repo label : list N) :
  detect_integration combined all_names repo = Some label →
  known_label label ∧ label ≠ [] ∧ truthy (Some label) = true.
Proof.
  unfold detect_integration. intros H.
  assert (Hk : known_label label).
  { destruct (scan_integrations integrations combined repo) as [l|] eqn:Hscan.
    - injection H as <-. apply scan_label in Hscan as (k & n & Hin & _ & ->).
      left. by exists k, n.
    - right. by apply generic_integration_label in H. }
  assert (Hne : label ≠ []).
  { destruct Hk as [(k & n & Hin & ->)|(n & Hin & ->)].
    - by apply (integrations_labels_nonempty _ Hin).
    - unfold generic_labels in Hin.
      repeat (apply elem_of_cons in Hin as [->|Hin]; [done|]).
      by apply elem_of_nil in Hin. }
  split; [done|]. split; [done|]. by destruct label.
Qed.

Lemma detected_label_is_known_witness :
  known_label (py "React") ∧ py "React" ≠ []
  ∧ truthy (Some (py "React")) = true.
Proof.
  apply (detected_label_is_known (py "a react component library") [] (py "x/y")).
  by vm_compute.
Defined.

(** X7: the table holds the pair ("laravel forge", "Laravel Forge") after
    the pair ("laravel", "Laravel"), whose keyword occurs wherever
    "laravel forge" does; so no text and no repo is ever labelled
    "Laravel Forge". *)
Theorem laravel_forge_is_never_detected (combined all_names repo : list N) :
  ("laravel forge", "Laravel Forge")%string ∈ integrations
  ∧ detect_integration combined all_names repo ≠ Some (py "Laravel Forge").
Proof.
  split; [by apply list_elem_of_In; vm_compute; tauto|].
  unfold detect_integration.
  assert (Hsplit : integrations =
    take 72 integrations
    ++ [("laravel", "Laravel"); ("laravel forge", "Laravel Forge")]%string
    ++ drop 74 integrations) by reflexivity.
  set (pre := take 72 integrations) in Hsplit.
  set (post := drop 74 integrations) in Hsplit.
  assert (Hother : ∀ row, row ∈ pre ++ post → py row.2 ≠ py "Laravel Forge").
  { intros row Hrow.
    check_row (λ row : string * string,
                 negb (bool_decide (py row.2 = py "Laravel Forge"))) Hrow.
    by apply negb_true_iff, bool_decide_eq_false in Hrow. }
  rewrite Hsplit, scan_app.
  destruct (scan_integrations pre combined repo) as [l|] eqn:Hpre.
  { apply scan_label in Hpre as (k & n & Hin & _ & ->). intros [= H].
    apply (Hother (k, n)); [apply elem_of_app; by left | done]. }
  cbn [app scan_integrations].
  destruct (keyword_hits "laravel" combined repo) eqn:Hl; [by vm_compute|].
  destruct (keyword_hits "laravel forge" combined repo) eqn:Hlf.
  { apply laravel_forge_hits in Hlf. congruence. }
  destruct (scan_integrations post combined repo) as [l|] eqn:Hpost.
  { apply scan_label in Hpost as (k & n & Hin & _ & ->). intros [= H].
    apply (Hother (k, n)); [apply elem_of_app; by right | done]. }
  intros (n & Hin & Hn)%generic_integration_label.
  unfold generic_labels in Hin.
  repeat (apply elem_of_cons in Hin as [->|Hin]; [by vm_compute in Hn|]).
  by apply elem_of_nil in Hin.
Qed.

(** ** The vocabulary of the tag list *)

Lemma general_is_no_table_tag :
  ∀ row, row ∈ tag_patterns → py row.2 ≠ py "general".
Proof.
  intros row Hrow.
  check_row (λ row : string * string,
               negb (bool_decide (py row.2 = py "general"))) Hrow.
  by apply negb_true_iff, bool_decide_eq_false in Hrow.
Qed.

(** ** The shape of an extracted function *)

Section Extraction.

Lemma truncate_length func : (length (truncate func) ≤ 150)%nat.
Proof.
  unfold truncate. destruct (Nat.ltb_spec 150 (length func)); [|done].
  rewrite length_app, length_take_le by lia. simpl. lia.
Qed.

Lemma close_sentence_length func :
  (length (close_sentence func) ≤ S (length func))%nat.
Proof.
  unfold close_sentence. destruct (last func) as [c|]; [|lia].
  destruct (is_terminator c); [lia|]. rewrite length_app. simpl. lia.
Qed.

Lemma close_sentence_ends func :
  close_sentence func = []
  ∨ ∃ c, last (close_sentence func) = Some c ∧ is_terminator c = true.
Proof.
  unfold close_sentence. destruct (last func) as [c|] eqn:Hl.
  - right. destruct (is_terminator c) eqn:Hc.
    + by exists c.
    + exists 46. change (py ".") with [46]. by rewrite last_snoc.
  - left. by apply last_None.
Qed.

Lemma close_sentence_open func c :
  last func = Some c → is_terminator c = false →
  close_sentence func = func ++ py ".".
Proof. unfold close_sentence. by intros -> ->. Qed.

End Extraction.

(** X9: the function taken from a source description has at most 151
    characters, not 150: a sentence of exactly 150 characters is not cut
    and still gets its period.  Unless it is empty, it ends in a sentence
    terminator. *)
Theorem extracted_function_shape (source : list N) :
  (length (extract_function source) ≤ 151)%nat
  ∧ (extract_function source = []
     ∨ ∃ c, last (extract_function source) = Some c ∧ is_terminator c = true)
  ∧ (∀ c, length (first_sentence_of source) = 150%nat →
          last (first_sentence_of source) = Some c → is_terminator c = false →
          length (extract_function source) = 151%nat).
Proof.
  unfold extract_function. split; [|split].
  - pose proof (truncate_length (first_sentence_of source)).
    pose proof (close_sentence_length (truncate (first_sentence_of source))). lia.
  - apply close_sentence_ends.
  - intros c Hlen Hlast Hc. unfold truncate. rewrite Hlen. simpl.
    by rewrite (close_sentence_open _ c Hlast Hc), length_app, Hlen.
Qed.

Lemma extracted_function_shape_witness :
  length (first_sentence_of (replicate 150 97)) = 150%nat
  ∧ length (extract_function (replicate 150 97)) = 151%nat.
Proof.
  split; [by vm_compute|].
  apply (proj2 (proj2 (extracted_function_shape (replicate 150 97))) 97);
    by vm_compute.
Defined.

(** ** A description of white space *)

Section Blank.

Lemma isspace_cases c :
  isspace c = true →
  in_range 9 13 c = true ∨ in_range 28 32 c = true ∨ c = 133 ∨ c = 160
  ∨ c = 5760 ∨ in_range 8192 8202 c = true ∨ c = 8232 ∨ c = 8233
  ∨ c = 8239 ∨ c = 8287 ∨ c = 12288.
Proof. unfold isspace. rewrite !orb_true_iff, !N.eqb_eq. tauto. Qed.

Ltac space_cases H :=
  apply isspace_cases in H;
  repeat match type of H with
         | _ ∨ _ => destruct H as [H|H]
         end;
  try apply in_range_spec in H.

Lemma isspace_lower c : isspace c = true → lower_char c = c.
Proof.
  intros H. apply lower_char_fixed; apply in_range_out; space_cases H; lia.
Qed.

Lemma isspace_not_word c : isspace c = true → is_word c = false.
Proof.
  intros H. unfold is_word.
  rewrite !orb_false_iff, !N.eqb_neq.
  repeat split; try apply in_range_out; space_cases H; lia.
Qed.

Lemma isspace_not_terminator c : isspace c = true → is_terminator c = false.
Proof.
  intros H. unfold is_terminator, is_cjk_terminator,
    cjk_full_stop, cjk_exclamation, cjk_question.
  rewrite !orb_false_iff, !N.eqb_neq.
  repeat split; space_cases H; lia.
Qed.

Lemma blank_lower s : blank s → lower s = s.
Proof.
  intros H. induction s as [|c s IH]; [done|].
  unfold lower in *. rewrite fmap_cons, IH by (intros x Hx; apply H; by right).
  rewrite isspace_lower; [done|]. apply H. by left.
Qed.

Lemma lstrip_blank s : blank s → lstrip s = [].
Proof.
  induction s as [|c s IH]; [done|]. intros H. simpl.
  rewrite (H c) by left. apply IH. intros x Hx. apply H. by right.
Qed.

Lemma strip_blank s : blank s → strip s = [].
Proof.
  intros H. unfold strip, rstrip.
  rewrite (lstrip_blank (reverse s)); [done|].
  intros c Hc. apply H. by apply elem_of_reverse.
Qed.

Lemma contains_elem needle hay c :
  contains needle hay = true → c ∈ needle → c ∈ hay.
Proof.
  rewrite contains_spec. intros (pre & post & ->) Hc. set_solver.
Qed.

(** A keyword with a character that is not white space does not occur in
    a blank text. *)
Lemma has_blank kw text :
  blank text → existsb (λ c, negb (isspace c)) (py kw) = true →
  has kw text = false.
Proof.
  intros Hb Hk. apply not_true_is_false. intros Hhas.
  apply existsb_exists in Hk as (c & Hc & Hns).
  apply list_elem_of_In in Hc.
  apply (contains_elem _ _ c Hhas) in Hc.
  by rewrite (Hb c Hc) in Hns.
Qed.

Lemma integrations_keywords_visible :
  ∀ row, row ∈ integrations → existsb (λ c, negb (isspace c)) (py row.1) = true.
Proof.
  intros row Hrow.
  by check_row (λ row : string * string,
                  existsb (λ c, negb (isspace c)) (py row.1)) Hrow.
Qed.

Ltac clear_blank Hb :=
  repeat match goal with
         | |- context [has ?kw ?text] =>
             rewrite (has_blank kw text Hb) by (by vm_compute)
         end.

Lemma generic_integration_blank combined :
  blank combined → generic_integration combined = None.
Proof.
  intros Hb. unfold generic_integration. cbn [existsb]. clear_blank Hb.
  assert (startswith (py "go ") combined = false) as ->; [|done].
  apply not_true_is_false. intros (post & ->)%startswith_spec.
  assert (isspace 103 = true) by (apply Hb; by left). done.
Qed.

Lemma content_rules_blank combined : blank combined → content_rules combined = None.
Proof. intros Hb. unfold content_rules. by clear_blank Hb. Qed.

Lemma late_rules_blank combined : blank combined → late_rules combined = None.
Proof. intros Hb. unfold late_rules. by clear_blank Hb. Qed.

Lemma value_from_context_blank combined :
  blank combined →
  value_from_context combined
  = py "Streamline development workflows and reduce manual effort.".
Proof. intros Hb. unfold value_from_context. by clear_blank Hb. Qed.

Lemma first_sentence_blank source : blank source → first_sentence_of source = [].
Proof.
  intros Hb. unfold first_sentence_of.
  assert (Hplain : ∀ c, c ∈ source → is_terminator c = false).
  { intros c Hc. by apply isspace_not_terminator, Hb. }
  destruct (_ && _).
  - destruct (re_match_cjk source) as [g|] eqn:Hg; [|by apply strip_blank].
    apply re_match_cjk_spec in Hg as (c & body & t & rest & -> & -> & Ht & _).
    assert (is_terminator t = false) as Hf by (apply Hplain; set_solver).
    unfold is_terminator in Hf. rewrite Ht in Hf.
    by rewrite !orb_true_r in Hf.
  - destruct source as [|c s]; [done|].
    rewrite re_match_sentence_plain by done. by apply strip_blank.
Qed.

End Blank.

(** ** When the transform raises *)

Section Raising.

Lemma mapM_names_None (ps : list PluginRecord) :
  mapM id ((λ p, get_default (plugin_name p) []) <$> ps) = None ↔
  ∃ p, p ∈ ps ∧ plugin_name p = Null.
Proof.
  induction ps as [|p ps IH]; [split; [done | by intros (p & ?%elem_of_nil & _)]|].
  rewrite fmap_cons. cbn [mapM].
  destruct (plugin_name p) eqn:Hn; simpl.
  - destruct (mapM id _) as [rest|]; simpl.
    + split; [done|]. intros (q & [->|Hq]%elem_of_cons & Hnull); [congruence|].
      assert (Some rest = None) by (apply IH; eauto). done.
    + split; [|done]. intros _. destruct (proj1 IH eq_refl) as (q & Hq & Hnull).
      exists q. split; [by right | done].
  - split; [|done]. intros _. exists p. split; [by left | done].
  - destruct (mapM id _) as [rest|]; simpl.
    + split; [done|]. intros (q & [->|Hq]%elem_of_cons & Hnull); [congruence|].
      assert (Some rest = None) by (apply IH; eauto). done.
    + split; [|done]. intros _. destruct (proj1 IH eq_refl) as (q & Hq & Hnull).
      exists q. split; [by right | done].
Qed.

End Raising.

(** ** main *)

Section Batch.

Lemma analyze_all_returns data rs :
  Forall2 (λ m r, ∀ idx, analyze_marketplace m idx = Return r) data rs →
  ∀ i total results log,
    analyze_all data i total results log
    = (log ++ progress_lines i (length data) total, Return (results ++ rs)).
Proof.
  induction 1 as [|m r data rs Hm _ IH]; intros i total results log.
  - unfold progress_lines. simpl. by rewrite !app_nil_r.
  - cbn [analyze_all]. rewrite Hm, IH. unfold progress_lines. cbn [length seq].
    rewrite filter_cons. replace (i + 1)%nat with (S i) by lia.
    destruct (Nat.eqb_spec (S i `mod` 50) 0) as [Heq|Hne].
    + rewrite decide_True by done. by rewrite fmap_cons, <- ?app_assoc.
    + rewrite decide_False by done. by rewrite <- ?app_assoc.
Qed.

Lemma analyze_all_raises good bad rest rs e :
  Forall2 (λ m r, ∀ idx, analyze_marketplace m idx = Return r) good rs →
  (∀ idx, analyze_marketplace bad idx = Raise e) →
  ∀ i total results log,
    analyze_all (good ++ bad :: rest) i total results log
    = (log ++ progress_lines i (length good) total, Raise e).
Proof.
  intros Hgood Hbad.
  induction Hgood as [|m r good rs Hm _ IH]; intros i total results log.
  - cbn [app analyze_all]. rewrite Hbad. unfold progress_lines. simpl.
    by rewrite app_nil_r.
  - cbn [app analyze_all]. rewrite Hm, IH. unfold progress_lines. cbn [length seq].
    rewrite filter_cons. replace (i + 1)%nat with (S i) by lia.
    destruct (Nat.eqb_spec (S i `mod` 50) 0) as [Heq|Hne].
    + rewrite decide_True by done. by rewrite fmap_cons, <- ?app_assoc.
    + rewrite decide_False by done. by rewrite <- ?app_assoc.
Qed.

End Batch.

(** X13: when every record is analysed without an exception, main prints
    the opening line, one progress line for each multiple of 50 up to the
    number of records, writes the results once, in the order of the
    records and as many as there are records, and prints the three closing
    lines with the counts of the results whose function, and whose
    integration, is neither None nor empty. *)
Theorem main_writes_results_in_order (data : list MarketplaceRecord)
    (results : list AnalysisResult) :
  Forall2 (λ m r, ∀ idx, analyze_marketplace m idx = Return r) data results →
  main data =
    (Print (py "Analyzing " ++ decimal (length data) ++ py " marketplaces...")
       :: progress_lines 0 (length data) (length data) ++ closing_events results,
     Return ())
  ∧ length results = length data.
Proof.
  intros H. split; [|symmetry; by eapply Forall2_length].
  unfold main. rewrite (analyze_all_returns _ _ H). cbn [app].
  unfold closing_events. f_equal. f_equal. by rewrite <- ?app_assoc.
Qed.

Lemma main_writes_results_in_order_witness :
  main (replicate 50 kubernetes_record) =
    (Print (py "Analyzing 50 marketplaces...")
       :: [progress_line 50 50] ++ closing_events (replicate 50 kubernetes_result),
     Return ())
  ∧ length (replicate 50 kubernetes_result) = length (replicate 50 kubernetes_record).
Proof.
  apply (main_writes_results_in_order (replicate 50 kubernetes_record)
           (replicate 50 kubernetes_result)).
  apply Forall2_replicate. intros idx. by vm_compute.
Defined.

(** X14: when a record raises, main stops there: it has printed the opening
    line and the progress lines of the records before it, it raises the
    same exception, and it writes nothing, the results of the records
    before it included. *)
Theorem main_writes_nothing_when_a_record_raises
    (good : list MarketplaceRecord) (bad : MarketplaceRecord)
    (rest : list MarketplaceRecord) (results : list AnalysisResult) :
  Forall2 (λ m r, ∀ idx, analyze_marketplace m idx = Return r) good results →
  (∀ idx, analyze_marketplace bad idx = Raise TypeError) →
  let data := good ++ bad :: rest in
  main data =
    (Print (py "Analyzing " ++ decimal (length data) ++ py " marketplaces...")
       :: progress_lines 0 (length good) (length data),
     Raise TypeError)
  ∧ ∀ ev, ev ∈ (main data).1 → ¬ is_dump ev.
Proof.
  intros Hgood Hbad data.
  assert (Hmain : main data =
    (Print (py "Analyzing " ++ decimal (length data) ++ py " marketplaces...")
       :: progress_lines 0 (length good) (length data), Raise TypeError)).
  { unfold main, data. by rewrite (analyze_all_raises _ _ _ _ _ Hgood Hbad). }
  split; [done|]. rewrite Hmain. cbn [fst].
  intros ev [->|Hev]%elem_of_cons; [by intros []|].
  unfold progress_lines in Hev.
  apply list_elem_of_fmap in Hev as (k & -> & _). by intros [].
Qed.

Lemma main_writes_nothing_when_a_record_raises_witness :
  main ([kubernetes_record] ++ null_name_record :: [commit_helper_record]) =
    ([Print (py "Analyzing 3 marketplaces...")], Raise TypeError).
Proof.
  apply (main_writes_nothing_when_a_record_raises
           [kubernetes_record] null_name_record [commit_helper_record]
           [kubernetes_result]).
  - repeat constructor.
  - done.
Defined.

(** ** The sentences end in a terminator *)

Section Punctuation.

Lemma guess_from_names_period names f v :
  guess_from_names names = (Some f, Some v) → last f = Some 46 ∧ last v = Some 46.
Proof.
  unfold guess_from_names. repeat case_match; intros [= <- <-]; by vm_compute.
Qed.

Lemma content_rules_period combined f v :
  content_rules combined = Some (f, v) → last f = Some 46 ∧ last v = Some 46.
Proof.
  unfold content_rules. repeat case_match; intros [= <- <-]; by vm_compute.
Qed.

Lemma late_rules_period combined f v :
  late_rules combined = Some (f, v) → last f = Some 46 ∧ last v = Some 46.
Proof.
  unfold late_rules. repeat case_match; intros [= <- <-]; by vm_compute.
Qed.

Lemma value_from_context_period combined :
  last (value_from_context combined) = Some 46.
Proof. unfold value_from_context. repeat case_match; by vm_compute. Qed.

Lemma last_template (a b : string) (label : list N) :
  last (py b) = Some 46 → last (py a ++ label ++ py b) = Some 46.
Proof. intros H. by rewrite !last_app, H. Qed.

Lemma describe_integration_period label :
  last (describe_integration label).1 = Some 46
  ∧ last (describe_integration label).2 = Some 46.
Proof.
  unfold describe_integration.
  repeat case_match; cbn [fst snd]; split;
    first [ by vm_compute | by apply last_template; vm_compute ].
Qed.

End Punctuation.

(** X15: whenever the generator returns two sentences, the value ends in a
    period, and the function is empty or ends in a sentence terminator:
    every canned sentence and every sentence made from a label ends in a
    period, and an extracted sentence is closed by one. *)
Theorem returned_sentences_are_punctuated (m : MarketplaceRecord)
    (combined : list N) (integration : option (list N)) (tags : gset (list N))
    (f v : list N) :
  generate_descriptions m combined integration tags = Return (Some f, Some v) →
  (f = [] ∨ ∃ c, last f = Some c ∧ is_terminator c = true)
  ∧ last v = Some 46.
Proof.
  assert (Hdot : ∀ f' v', last f' = Some 46 ∧ last v' = Some 46 →
    (f' = [] ∨ ∃ c, last f' = Some c ∧ is_terminator c = true) ∧ last v' = Some 46).
  { intros f' v' [Hf Hv]. split; [|done]. right. by exists 46. }
  unfold generate_descriptions.
  destruct (negb (truthy (get_default (description m) []))
            && negb (truthy (first_plugin_description (plugins m)))).
  - destruct ((λ p, get_default (plugin_name p) []) <$> plugins m) as [|n ns];
      [done|].
    unfold join_values. destruct (mapM id (n :: ns)) as [parts|]; [|done].
    cbn [mbind outcome_bind bind]. intros [= H].
    by apply Hdot, (guess_from_names_period _ _ _ H).
  - destruct (content_rules combined) as [[f' v']|] eqn:Hc.
    { intros [= <- <-]. by apply Hdot, (content_rules_period _ _ _ Hc). }
    destruct (truthy integration).
    { intros [= <- <-]. apply Hdot, describe_integration_period. }
    destruct (late_rules combined) as [[f' v']|] eqn:Hl.
    { intros [= <- <-]. by apply Hdot, (late_rules_period _ _ _ Hl). }
    destruct (if truthy (get_default (description m) [])
              then get_default (description m) []
              else first_plugin_description (plugins m)) as [[|c s]|]; try done.
    intros [= <- <-]. split; [apply close_sentence_ends|].
    apply value_from_context_period.
Qed.

Lemma returned_sentences_are_punctuated_witness :
  (py "Wow!" = [] ∨ ∃ c, last (py "Wow!") = Some c ∧ is_terminator c = true)
  ∧ last (py "Streamline development workflows and reduce manual effort.") = Some 46.
Proof.
  apply (returned_sentences_are_punctuated (described wow_source)
           (combined_text (described wow_source)) None ∅).
  by vm_compute.
Defined.

(** * The script over the Unicode tables of Python *)

(** ** The model is the instance at the tables of this file *)

Section Instance.

Lemma scan_integrations_instance table combined r :
  scan_integrations table combined r
  = Unicode.scan_integrations lower table combined r.
Proof. induction table as [|[kw nm] table IH]; [done|]. simpl. by rewrite IH. Qed.

Lemma search_from_instance alts prev s :
  search_from alts prev s = Unicode.search_from is_word alts prev s.
Proof. revert prev. induction s as [|c s IH]; intros prev; [done|]. simpl. by rewrite IH. Qed.

Lemma add_tag_instance combined acc row :
  add_tag combined acc row = Unicode.add_tag is_word combined acc row.
Proof.
  unfold add_tag, Unicode.add_tag, re_search, Unicode.re_search.
  by rewrite search_from_instance.
Qed.

Lemma detect_tags_instance combined all_names :
  detect_tags combined all_names = Unicode.detect_tags is_word combined all_names.
Proof.
  unfold detect_tags, Unicode.detect_tags. generalize (∅ : gset (list N)).
  induction tag_patterns as [|row table IH]; intros acc; [done|].
  cbn [foldl]. by rewrite add_tag_instance, IH.
Qed.

Lemma detect_integration_instance combined all_names r :
  detect_integration combined all_names r
  = Unicode.detect_integration lower combined all_names r.
Proof.
  unfold detect_integration, Unicode.detect_integration.
  by rewrite scan_integrations_instance.
Qed.

Lemma generate_descriptions_instance m combined integration tags :
  generate_descriptions m combined integration tags
  = Unicode.generate_descriptions lower m combined integration tags.
Proof. reflexivity. Qed.

(** The transform of the model is the transform of [Unicode] at [lower]
    and [is_word]. *)
Lemma analyze_marketplace_instance m idx :
  analyze_marketplace m idx = Unicode.analyze_marketplace lower is_word m idx.
Proof.
  unfold analyze_marketplace, Unicode.analyze_marketplace.
  change (Unicode.combined_text lower m) with (combined_text m).
  change (Unicode.name_text lower m) with (name_text m).
  by rewrite detect_integration_instance, detect_tags_instance,
    generate_descriptions_instance.
Qed.

End Instance.

(** ** Lemmas *)

Section UnicodeTables.

Variable str_lower : list N → list N.
Variable word_char : N → bool.

(** Text aggregation. *)

Lemma unicode_combined_text_spec m :
  Unicode.combined_text str_lower m = str_lower (join (py " ") (spec_all_info m)).
Proof. unfold Unicode.combined_text. by rewrite all_info_collect. Qed.

Lemma unicode_combined_text_same m m' :
  same_descriptions m m' →
  Unicode.combined_text str_lower m = Unicode.combined_text str_lower m'.
Proof.
  intros Hs. by rewrite !unicode_combined_text_spec, (spec_all_info_same _ _ Hs).
Qed.

(** The scan of the keyword table. *)

Lemma unicode_scan_first_hit combined r table i name :
  Unicode.first_hit str_lower table combined r i name →
  Unicode.scan_integrations str_lower table combined r = Some (py name).
Proof.
  revert i.
  induction table as [|[kw nm] table IH]; intros i (keyword & Hi & Hhit & Hbefore).
  - done.
  - simpl. destruct i as [|i]; simpl in Hi.
    + injection Hi as -> ->. by rewrite Hhit.
    + rewrite (Hbefore 0%nat kw nm) by (simpl; done || lia).
      apply (IH i). exists keyword. split; [done|]. split; [done|].
      intros j kw' nm' Hj Hlook. apply (Hbefore (S j) kw' nm'); [lia | done].
Qed.

Lemma unicode_scan_no_hit combined r table :
  Unicode.no_hit str_lower table combined r →
  Unicode.scan_integrations str_lower table combined r = None.
Proof.
  induction table as [|[kw nm] table IH]; intros Hno; [done|].
  simpl. rewrite (Hno kw nm) by left. apply IH.
  intros k n Hin. apply (Hno k n). by right.
Qed.

Lemma unicode_scan_some combined r table label :
  Unicode.scan_integrations str_lower table combined r = Some label →
  ∃ i name, Unicode.first_hit str_lower table combined r i name ∧ label = py name.
Proof.
  induction table as [|[kw nm] table IH]; simpl; [done|].
  destruct (Unicode.keyword_hits str_lower kw combined r) eqn:Hkw.
  - intros [= <-]. exists 0%nat, nm. split; [|done].
    exists kw. split; [done|]. split; [done|]. lia.
  - intros (i & name & (keyword & Hi & Hhit & Hbefore) & ->)%IH.
    exists (S i), name. split; [|done].
    exists keyword. split; [done|]. split; [done|].
    intros [|j] kw' nm' Hj Hj'; simpl in Hj'.
    + by injection Hj' as <- <-.
    + apply (Hbefore j kw' nm'); [lia | done].
Qed.

Lemma unicode_scan_none combined r table :
  Unicode.scan_integrations str_lower table combined r = None →
  Unicode.no_hit str_lower table combined r.
Proof.
  induction table as [|[kw nm] table IH]; simpl.
  - by intros _ k n ?%elem_of_nil.
  - destruct (Unicode.keyword_hits str_lower kw combined r) eqn:Hkw; [done|].
    intros H k n [[= -> ->]|Hin]%elem_of_cons; [done|]. by apply (IH H k n).
Qed.


(** Tag extraction. *)

Lemma unicode_detect_tags_fold combined table acc t :
  t ∈ foldl (Unicode.add_tag word_char combined) acc table ↔
  t ∈ acc ∨ ∃ pattern tag,
    (pattern, tag) ∈ table ∧ Unicode.re_search word_char pattern combined = true
    ∧ t = py tag.
Proof.
  revert acc. induction table as [|[pattern tag] table IH]; intros acc; simpl.
  - split; [by left|]. intros [?|(p & g & Hin & _)]; [done|].
    by apply elem_of_nil in Hin.
  - rewrite IH. unfold Unicode.add_tag at 1. simpl. split.
    + intros [Hacc|(p & g & Hin & Hm & ->)].
      * destruct (Unicode.re_search word_char pattern combined) eqn:Hm.
        -- apply elem_of_union in Hacc as [->%elem_of_singleton|Hacc]; [|by left].
           right. exists pattern, tag. split; [by left | done].
        -- by left.
      * right. exists p, g. split; [by right | done].
    + intros [Hacc|(p & g & Hin & Hm & ->)].
      * left. destruct (Unicode.re_search word_char pattern combined); [|done].
        apply elem_of_union. by right.
      * apply elem_of_cons in Hin as [[= -> ->]|Hin].
        -- left. rewrite Hm. apply elem_of_union. left. by apply elem_of_singleton.
        -- right. by exists p, g.
Qed.

(** The tags of a text: membership, order of the output, default. *)
Lemma unicode_tags_of_text (combined all_names : list N) :
  let tags := Unicode.detect_tags word_char combined all_names in
  let out := tag_list tags in
  (∀ t, t ∈ tags ↔
     ∃ pattern tag, (pattern, tag) ∈ tag_patterns ∧
       Unicode.re_search word_char pattern combined = true ∧ t = py tag)
  ∧ (tags ≠ ∅ →
     StronglySorted str_le out ∧ NoDup out ∧ ∀ t, t ∈ out ↔ t ∈ tags)
  ∧ ((∀ pattern tag, (pattern, tag) ∈ tag_patterns →
        Unicode.re_search word_char pattern combined = false) → out = [py "general"])
  ∧ out ≠ [].
Proof.
  intros tags out.
  assert (Hmem : ∀ t, t ∈ tags ↔
     ∃ pattern tag, (pattern, tag) ∈ tag_patterns ∧
       Unicode.re_search word_char pattern combined = true ∧ t = py tag).
  { intros t. unfold tags, Unicode.detect_tags. rewrite unicode_detect_tags_fold.
    split; [intros [H|H]; [by apply not_elem_of_empty in H | done] | by right]. }
  assert (Hsorted : tags ≠ ∅ →
     StronglySorted str_le out ∧ NoDup out ∧ ∀ t, t ∈ out ↔ t ∈ tags).
  { intros Hne. unfold out, tag_list. destruct (decide (tags = ∅)); [done|].
    destruct (sorted_spec (elements tags)) as [Hs Hp].
    split; [done|]. split.
    - rewrite Hp. apply NoDup_elements.
    - intros t. rewrite Hp. apply elem_of_elements. }
  split; [done|]. split; [done|]. split.
  - intros Hnone. unfold out, tag_list.
    destruct (decide (tags = ∅)) as [|Hne]; [done|].
    exfalso. apply Hne. apply set_eq. intros t. rewrite Hmem. split.
    + intros (p & g & Hin & Hm & _). rewrite (Hnone p g Hin) in Hm. done.
    + by intros H%not_elem_of_empty.
  - destruct (decide (tags = ∅)) as [He|Hne].
    + unfold out, tag_list. by rewrite decide_True.
    + destruct (Hsorted Hne) as (_ & _ & Hout).
      intros Hnil. apply Hne. apply set_eq. intros t. rewrite <- Hout, Hnil.
      split; [by intros H%elem_of_nil | by intros H%not_elem_of_empty].
Qed.

(** No word boundary in a text of white space, so no tag pattern
    matches. *)
Lemma unicode_search_blank alts s prev :
  (∀ c, isspace c = true → word_char c = false) →
  blank s → Unicode.word_at word_char prev = false →
  Unicode.search_from word_char alts prev s = false.
Proof.
  intros Hw. revert prev. induction s as [|c s IH]; intros prev Hb Hp.
  - simpl. unfold Unicode.match_here, Unicode.boundary. by rewrite Hp.
  - assert (Hc : word_char c = false) by (apply Hw, Hb; by left).
    cbn [Unicode.search_from].
    unfold Unicode.match_here at 1, Unicode.boundary at 1. cbn [head].
    unfold Unicode.word_at at 2. cbn [from_option]. rewrite Hp, Hc.
    cbn [xorb andb orb].
    apply IH; [intros x Hx; apply Hb; by right | done].
Qed.

Lemma unicode_detect_tags_blank combined all_names :
  (∀ c, isspace c = true → word_char c = false) →
  blank combined → Unicode.detect_tags word_char combined all_names = ∅.
Proof.
  intros Hw Hb. unfold Unicode.detect_tags.
  assert (H : ∀ table acc,
             foldl (Unicode.add_tag word_char combined) acc table = acc).
  { induction table as [|row table IH]; intros acc; [done|].
    cbn [foldl]. unfold Unicode.add_tag at 2, Unicode.re_search.
    by rewrite unicode_search_blank, IH. }
  apply H.
Qed.

(** The transform. *)

(** What a returned result holds, field by field. *)
Lemma unicode_analyze_marketplace_returns m idx r :
  let combined := Unicode.combined_text str_lower m in
  let all_names := Unicode.name_text str_lower m in
  Unicode.analyze_marketplace str_lower word_char m idx = Return r →
  result_repo r = repo m
  ∧ integration r = Unicode.detect_integration str_lower combined all_names (repo m)
  ∧ stage_lifecycle_arch r
    = tag_list (Unicode.detect_tags word_char combined all_names)
  ∧ Unicode.generate_descriptions str_lower m combined
      (Unicode.detect_integration str_lower combined all_names (repo m))
      (Unicode.detect_tags word_char combined all_names)
    = Return (function r, value r).
Proof.
  intros combined all_names. unfold Unicode.analyze_marketplace.
  fold combined all_names.
  destruct (Unicode.generate_descriptions _ _ _ _ _) as [[f v]|]; simpl; [|done].
  by intros [= <-].
Qed.

Lemma unicode_generate_with_text m combined integration tags :
  ¬ no_text m →
  ∃ f v, Unicode.generate_descriptions str_lower m combined integration tags
         = Return (Some f, Some v).
Proof.
  intros Hyes. unfold Unicode.generate_descriptions.
  destruct (negb (truthy (get_default (description m) []))
            && negb (truthy (first_plugin_description (plugins m)))) eqn:Htest.
  { exfalso. apply Hyes. by apply no_text_test. }
  assert (Hsrc : ∃ c s, (if truthy (get_default (description m) [])
                         then get_default (description m) []
                         else first_plugin_description (plugins m)) = Some (c :: s)).
  { apply andb_false_iff in Htest as [H|H]; apply negb_false_iff in H.
    - rewrite H. destruct (get_default (description m) []) as [[|c s]|]; try done.
      by exists c, s.
    - destruct (truthy (get_default (description m) [])) eqn:Hd.
      + destruct (get_default (description m) []) as [[|c s]|]; try done.
        by exists c, s.
      + destruct (first_plugin_description (plugins m)) as [[|c s]|]; try done.
        by exists c, s. }
  destruct Hsrc as (c & s & ->).
  repeat case_match; unfold both; simpl; eauto.
Qed.

Lemma unicode_generate_raises_iff m combined integration tags :
  Unicode.generate_descriptions str_lower m combined integration tags
  = Raise TypeError ↔
  no_text m ∧ ∃ p, p ∈ plugins m ∧ plugin_name p = Null.
Proof.
  split.
  - intros Hraise.
    assert (Hno : no_text m).
    { apply no_text_test.
      destruct (negb (truthy (get_default (description m) []))
                && negb (truthy (first_plugin_description (plugins m)))) eqn:Htest;
        [done|].
      assert (Hyes : ¬ no_text m) by (rewrite no_text_test; by rewrite Htest).
      destruct (unicode_generate_with_text m combined integration tags Hyes)
        as (f & v & H).
      congruence. }
    split; [done|]. apply mapM_names_None.
    unfold Unicode.generate_descriptions in Hraise.
    rewrite (proj1 (no_text_test m) Hno) in Hraise.
    destruct ((λ p, get_default (plugin_name p) []) <$> plugins m) as [|n ns] eqn:Hmap;
      [done|].
    unfold join_values in Hraise. by destruct (mapM id (n :: ns)).
  - intros [Hno (p & Hp & Hnull)]. unfold Unicode.generate_descriptions.
    rewrite (proj1 (no_text_test m) Hno).
    assert (Hm : mapM id ((λ p, get_default (plugin_name p) []) <$> plugins m) = None).
    { apply mapM_names_None. eauto. }
    destruct ((λ p, get_default (plugin_name p) []) <$> plugins m) as [|n ns] eqn:Hmap.
    { apply fmap_nil_inv in Hmap. rewrite Hmap in Hp. by apply elem_of_nil in Hp. }
    unfold join_values. by rewrite Hm.
Qed.

End UnicodeTables.

(** ** Text aggregation, on every text *)

(** C6: for every record, combinedText is the lower-cased, single-space
    join of the record's description (when present), then for each plugin
    in list order its description (when present), its skills' descriptions
    in order and its commands' descriptions in order, whatever
    [str.lower()] does to a text; names never contribute, so two records
    with the same descriptions have the same combinedText; and the record
    with description "A" and plugins described "B" and "C" gives the
    lower-cased "A B C", which is "a b c", whatever its other fields
    hold. *)
Theorem combined_text_is_joined_descriptions (str_lower : list N → list N) :
  (∀ m, Unicode.combined_text str_lower m
        = str_lower (join (py " ") (spec_all_info m)))
  ∧ (∀ m m', same_descriptions m m' →
       Unicode.combined_text str_lower m = Unicode.combined_text str_lower m')
  ∧ (∀ r nm n1 n2 s1 c1 s2 c2,
       Unicode.combined_text str_lower (abc_record r nm n1 n2 s1 c1 s2 c2)
       = str_lower (py "A B C"))
  ∧ (∀ r nm n1 n2 s1 c1 s2 c2,
       combined_text (abc_record r nm n1 n2 s1 c1 s2 c2) = py "a b c").
Proof.
  split; [apply unicode_combined_text_spec|].
  split; [apply unicode_combined_text_same|].
  assert (H : ∀ r nm n1 n2 s1 c1 s2 c2,
            join (py " ") (spec_all_info (abc_record r nm n1 n2 s1 c1 s2 c2))
            = py "A B C").
  { intros. unfold spec_all_info, abc_record.
    cbn [description plugins]. rewrite !bind_cons. unfold plugin_texts.
    cbn [plugin_description skills commands].
    by rewrite !item_texts_named_only. }
  split; intros.
  - by rewrite unicode_combined_text_spec, H.
  - by rewrite combined_text_spec, H.
Qed.

Lemma combined_text_is_joined_descriptions_witness :
  same_descriptions
    (abc_record (py "x/y") Absent (Str (py "one")) Null [Str (py "s")] [] [] [Null])
    (abc_record (py "docker/python") (Str (py "n")) Absent (Str (py "git")) [Absent] [] [] [Str (py "c")])
  ∧ Unicode.combined_text lower
      (abc_record (py "x/y") Absent (Str (py "one")) Null [Str (py "s")] [] [] [Null])
    = Unicode.combined_text lower
        (abc_record (py "docker/python") (Str (py "n")) Absent (Str (py "git")) [Absent] [] [] [Str (py "c")]).
Proof.
  assert (H : same_descriptions
    (abc_record (py "x/y") Absent (Str (py "one")) Null [Str (py "s")] [] [] [Null])
    (abc_record (py "docker/python") (Str (py "n")) Absent (Str (py "git")) [Absent] [] [] [Str (py "c")])).
  { split; [reflexivity|]. repeat constructor. }
  split; [exact H|].
  exact (proj1 (proj2 (combined_text_is_joined_descriptions lower)) _ _ H).
Defined.

(** X3: the aggregated names are grouped by kind, not by plugin: all_names
    is the lower-cased, single-space join of the plugin names, then the
    names of all skills, then the names of all commands, each group in the
    record's order and without the names that are missing, null or
    empty. *)
Theorem name_text_groups_by_kind (str_lower : list N → list N)
    (m : MarketplaceRecord) :
  Unicode.name_text str_lower m = str_lower (join (py " ") (spec_all_names m)).
Proof.
  unfold Unicode.name_text, collect, spec_all_names.
  by rewrite collect_plugins_fold.
Qed.

(** ** Integration classification, on every text *)

(** X16: the classifier returns the label of the first pair of the table
    whose keyword is a substring of combined or of [repo.lower()], and the
    answer of the rules on combined when no keyword of the table is; and
    every label it returns comes about in one of these two ways. *)
Theorem first_keyword_hit_gives_the_label (str_lower : list N → list N)
    (combined all_names r : list N) :
  let detected := Unicode.detect_integration str_lower combined all_names r in
  (∀ i name, Unicode.first_hit str_lower integrations combined r i name →
     detected = Some (py name))
  ∧ (Unicode.no_hit str_lower integrations combined r →
     detected = generic_integration combined)
  ∧ ((∃ i name, Unicode.first_hit str_lower integrations combined r i name)
     ∨ Unicode.no_hit str_lower integrations combined r).
Proof.
  intros detected. unfold detected, Unicode.detect_integration.
  split; [|split].
  - intros i name H. by rewrite (unicode_scan_first_hit _ _ _ _ _ _ H).
  - intros H. by rewrite (unicode_scan_no_hit _ _ _ _ H).
  - destruct (Unicode.scan_integrations str_lower integrations combined r)
      as [label|] eqn:Hscan.
    + left. apply unicode_scan_some in Hscan as (i & name & H & _). eauto.
    + right. by apply unicode_scan_none.
Qed.

Lemma first_keyword_hit_gives_the_label_witness :
  Unicode.first_hit lower integrations (py "rust axum service on aws") (py "x/y")
    38%nat "AWS"
  ∧ Unicode.detect_integration lower (py "rust axum service on aws") [] (py "x/y")
    = Some (py "AWS").
Proof.
  assert (H : Unicode.first_hit lower integrations
                (py "rust axum service on aws") (py "x/y") 38%nat "AWS").
  { exists "aws"%string. split; [reflexivity|]. split; [by vm_compute|].
    intros j kw nm Hj Hlook.
    assert (Hin : (kw, nm) ∈ take 38 integrations).
    { apply list_elem_of_lookup. exists j. by rewrite lookup_take_lt. }
    check_row (λ row : string * string,
                 negb (Unicode.keyword_hits lower row.1
                         (py "rust axum service on aws") (py "x/y"))) Hin.
    by apply negb_true_iff in Hin. }
  split; [exact H|].
  exact (proj1 (first_keyword_hit_gives_the_label lower _ [] _) _ _ H).
Defined.




(** C10: the rules after the table read combinedText alone: when no table
    keyword hits, the label is a function of combinedText; hence a record
    whose combinedText is empty and whose lower-cased repo holds no keyword
    of the table has no integration label, whatever else the repo holds. *)
Theorem generic_rules_ignore_repo (str_lower : list N → list N)
    (word_char : N → bool) (m : MarketplaceRecord) :
  let combined := Unicode.combined_text str_lower m in
  let all_names := Unicode.name_text str_lower m in
  (Unicode.no_hit str_lower integrations combined (repo m) →
     Unicode.detect_integration str_lower combined all_names (repo m)
     = generic_integration combined)
  ∧ (combined = [] →
     (∀ keyword name, (keyword, name) ∈ integrations →
        has keyword (str_lower (repo m)) = false) →
     Unicode.detect_integration str_lower combined all_names (repo m) = None
     ∧ ∀ idx r, Unicode.analyze_marketplace str_lower word_char m idx = Return r →
                integration r = None).
Proof.
  intros combined all_names. split.
  - intros H. unfold Unicode.detect_integration.
    by rewrite (unicode_scan_no_hit _ _ _ _ H).
  - intros Hc Hrepo.
    assert (Hnone : Unicode.detect_integration str_lower combined all_names (repo m)
                    = None).
    { unfold Unicode.detect_integration. rewrite Hc.
      rewrite unicode_scan_no_hit; [done|].
      intros keyword name Hin. unfold Unicode.keyword_hits.
      rewrite (Hrepo keyword name Hin), orb_false_r.
      apply has_empty_text. by apply (integrations_keywords _ Hin). }
    split; [done|].
    intros idx r Hr.
    destruct (unicode_analyze_marketplace_returns _ _ _ _ _ Hr) as (_ & -> & _).
    exact Hnone.
Qed.

Lemma generic_rules_ignore_repo_witness :
  has "typescript" (lower (repo typescript_repo_record)) = true
  ∧ Unicode.detect_integration lower
      (Unicode.combined_text lower typescript_repo_record)
      (Unicode.name_text lower typescript_repo_record)
      (repo typescript_repo_record) = None.
Proof.
  split; [reflexivity|].
  apply (proj2 (generic_rules_ignore_repo lower is_word typescript_repo_record)).
  - reflexivity.
  - intros keyword name Hin.
    check_row (λ row : string * string,
                 negb (has row.1 (lower (repo typescript_repo_record)))) Hin.
    by apply negb_true_iff in Hin.
Defined.

(** ** Tag extraction, on every text *)

(** C5: for every record, a tag is in the set exactly when some pattern of
    the table with that tag matches combinedText, each pattern on its own;
    the output list holds the tags of the set in ascending order, each
    once; when no pattern matches the output is the single tag "general";
    the output is never empty, and it is the tag list of the result. *)
Theorem tags_accumulate_sorted (str_lower : list N → list N)
    (word_char : N → bool) (m : MarketplaceRecord) :
  let combined := Unicode.combined_text str_lower m in
  let tags := Unicode.detect_tags word_char combined (Unicode.name_text str_lower m) in
  let out := tag_list tags in
  (∀ t, t ∈ tags ↔
     ∃ pattern tag, (pattern, tag) ∈ tag_patterns ∧
       Unicode.re_search word_char pattern combined = true ∧ t = py tag)
  ∧ (tags ≠ ∅ →
     StronglySorted str_le out ∧ NoDup out ∧ ∀ t, t ∈ out ↔ t ∈ tags)
  ∧ ((∀ pattern tag, (pattern, tag) ∈ tag_patterns →
        Unicode.re_search word_char pattern combined = false)
     → out = [py "general"])
  ∧ out ≠ []
  ∧ (∀ idx r, Unicode.analyze_marketplace str_lower word_char m idx = Return r →
              stage_lifecycle_arch r = out).
Proof.
  intros combined tags out.
  destruct (unicode_tags_of_text word_char combined (Unicode.name_text str_lower m))
    as (H1 & H2 & H3 & H4).
  repeat (split; [done|]).
  intros idx r Hr.
  by destruct (unicode_analyze_marketplace_returns _ _ _ _ _ Hr) as (_ & _ & -> & _).
Qed.

Lemma tags_accumulate_sorted_witness :
  Unicode.detect_tags is_word (Unicode.combined_text lower (described tagged_text)) [] ≠ ∅
  ∧ StronglySorted str_le
      (tag_list (Unicode.detect_tags is_word
                   (Unicode.combined_text lower (described tagged_text)) []))
  ∧ tag_list (Unicode.detect_tags is_word
                (Unicode.combined_text lower (described tagged_text)) [])
    = [py "backend"; py "devops"; py "planning"; py "testing"]
  ∧ tag_list (Unicode.detect_tags is_word
                (Unicode.combined_text lower (described (py "Nothing to see"))) [])
    = [py "general"].
Proof.
  assert (Hne : Unicode.detect_tags is_word
                  (Unicode.combined_text lower (described tagged_text)) [] ≠ ∅).
  { apply (bool_decide_unpack _). by vm_compute. }
  split; [exact Hne|]. split; [|split].
  - exact (proj1 (proj1 (proj2 (tags_accumulate_sorted lower is_word
                                  (described tagged_text))) Hne)).
  - by vm_compute.
  - apply (proj1 (proj2 (proj2 (tags_accumulate_sorted lower is_word
                                  (described (py "Nothing to see")))))).
    intros pattern tag Hin.
    check_row (λ row : string * string,
                 negb (Unicode.re_search is_word row.1
                         (Unicode.combined_text lower (described (py "Nothing to see")))))
              Hin.
    by apply negb_true_iff in Hin.
Defined.

(** X8: every tag of the output list is "general" or a tag of the table;
    "general" is in the list exactly when it is the whole list, which is
    exactly when no pattern matches; and the list holds at most 42 tags. *)
Theorem tag_list_vocabulary (word_char : N → bool) (combined all_names : list N) :
  let out := tag_list (Unicode.detect_tags word_char combined all_names) in
  (∀ t, t ∈ out →
     t = py "general" ∨ ∃ pattern tag, (pattern, tag) ∈ tag_patterns ∧ t = py tag)
  ∧ (py "general" ∈ out ↔ out = [py "general"])
  ∧ (py "general" ∈ out ↔
     ∀ pattern tag, (pattern, tag) ∈ tag_patterns →
       Unicode.re_search word_char pattern combined = false)
  ∧ (length out ≤ 42)%nat.
Proof.
  intros out.
  destruct (unicode_tags_of_text word_char combined all_names)
    as (Hmem & Hsorted & Hnone & Hne).
  fold out in Hsorted, Hnone, Hne.
  destruct (decide (Unicode.detect_tags word_char combined all_names = ∅)) as [He|Hn].
  - assert (Hout : out = [py "general"]).
    { unfold out, tag_list. by rewrite decide_True. }
    assert (Hno : ∀ pattern tag, (pattern, tag) ∈ tag_patterns →
                    Unicode.re_search word_char pattern combined = false).
    { intros p g Hin.
      destruct (Unicode.re_search word_char p combined) eqn:Hm; [|done].
      exfalso. apply (not_elem_of_empty (C:=gset (list N)) (py g)).
      rewrite <- He. apply Hmem. by exists p, g. }
    rewrite Hout. split; [|split; [|split]].
    + intros t ->%list_elem_of_singleton. by left.
    + split; [done | intros _; by apply list_elem_of_singleton].
    + split; [done | intros _; by apply list_elem_of_singleton].
    + simpl. lia.
  - destruct (Hsorted Hn) as (_ & Hnd & Hiff).
    assert (Htab : ∀ t, t ∈ out → ∃ pattern tag,
               (pattern, tag) ∈ tag_patterns
               ∧ Unicode.re_search word_char pattern combined = true
               ∧ t = py tag).
    { intros t Ht. by apply Hmem, Hiff. }
    assert (Hng : py "general" ∉ out).
    { intros (p & g & Hin & _ & Hg)%Htab.
      by apply (general_is_no_table_tag _ Hin). }
    split; [|split; [|split]].
    + intros t (p & g & Hin & _ & ->)%Htab. right. by exists p, g.
    + split; [done|]. intros Hout. exfalso. apply Hng. rewrite Hout.
      by apply list_elem_of_singleton.
    + split; [done|]. intros Hno. exfalso. apply Hn.
      apply set_eq. intros t. rewrite Hmem. split.
      * intros (p & g & Hin & Hm & _). by rewrite (Hno p g Hin) in Hm.
      * by intros ?%not_elem_of_empty.
    + change 42%nat with (length ((λ row : string * string, py row.2) <$> tag_patterns)).
      apply submseteq_length, NoDup_submseteq; [done|].
      intros t (p & g & Hin & _ & ->)%Htab.
      apply list_elem_of_fmap. by exists (p, g).
Qed.

(** ** A description of white space, on every text *)

(** X10: a record whose description is white space only, with no plugins
    and no table keyword in its lower-cased repo, gets the empty string for
    a function (not None), the default value sentence, the tag "general"
    and no integration label.  Of the tables of Python this takes that
    [str.lower()] leaves a text of white space as it is and that [\w]
    holds of no white space. *)
Theorem blank_description_gives_empty_function
    (str_lower : list N → list N) (word_char : N → bool)
    (r : list N) (nm : field) (text : list N) (idx : nat) :
  (∀ s, blank s → str_lower s = s) →
  (∀ c, isspace c = true → word_char c = false) →
  text ≠ [] → blank text →
  (∀ keyword name, (keyword, name) ∈ integrations →
     has keyword (str_lower r) = false) →
  Unicode.analyze_marketplace str_lower word_char (bare_record r nm text) idx =
  Return {| result_repo := r;
            function := Some [];
            value := Some (py "Streamline development workflows and reduce manual effort.");
            stage_lifecycle_arch := [py "general"];
            integration := None |}.
Proof.
  intros Hlower Hword Hne Hb Hrepo.
  assert (Hc : Unicode.combined_text str_lower (bare_record r nm text) = text).
  { destruct text as [|c s]; [done|].
    change (str_lower (c :: s) = c :: s). by apply Hlower. }
  unfold Unicode.analyze_marketplace. rewrite Hc.
  assert (Hint : Unicode.detect_integration str_lower text
                   (Unicode.name_text str_lower (bare_record r nm text)) r = None).
  { unfold Unicode.detect_integration. rewrite unicode_scan_no_hit.
    - by apply generic_integration_blank.
    - intros keyword name Hin. unfold Unicode.keyword_hits.
      rewrite (Hrepo keyword name Hin), orb_false_r.
      apply has_blank; [done|]. by apply (integrations_keywords_visible _ Hin). }
  change (repo (bare_record r nm text)) with r.
  rewrite Hint, unicode_detect_tags_blank by done.
  unfold Unicode.generate_descriptions.
  change (description (bare_record r nm text)) with (Str text).
  change (plugins (bare_record r nm text)) with (@nil PluginRecord).
  cbn [first_plugin_description].
  destruct text as [|c s]; [done|]. cbn [get_default truthy negb andb].
  rewrite content_rules_blank, late_rules_blank by done.
  cbn [truthy mbind outcome_bind bind]. unfold extract_function.
  by rewrite first_sentence_blank, value_from_context_blank by done.
Qed.

Lemma blank_description_gives_empty_function_witness :
  Unicode.analyze_marketplace lower is_word
    (bare_record (py "x/y") Absent (py "   ")) 0 =
  Return {| result_repo := py "x/y";
            function := Some [];
            value := Some (py "Streamline development workflows and reduce manual effort.");
            stage_lifecycle_arch := [py "general"];
            integration := None |}.
Proof.
  apply blank_description_gives_empty_function.
  - apply blank_lower.
  - apply isspace_not_word.
  - done.
  - intros c Hc. change (py "   ") with [32; 32; 32] in Hc.
    repeat (apply elem_of_cons in Hc as [->|Hc]; [reflexivity|]).
    by apply elem_of_nil in Hc.
  - intros keyword name Hin.
    check_row (λ row : string * string, negb (has row.1 (lower (py "x/y")))) Hin.
    by apply negb_true_iff in Hin.
Defined.

(** ** When the transform raises, on every text *)

(** X11: among the records whose repo is a string and whose plugins,
    skills and commands are lists, which are the records of
    [MarketplaceRecord], the transform raises TypeError exactly on those
    that have no description of their own and none on a plugin, and have a
    plugin whose name is null. *)
Theorem transform_raises_iff (str_lower : list N → list N) (word_char : N → bool)
    (m : MarketplaceRecord) (idx : nat) :
  Unicode.analyze_marketplace str_lower word_char m idx = Raise TypeError ↔
  no_text m ∧ ∃ p, p ∈ plugins m ∧ plugin_name p = Null.
Proof.
  rewrite <- (unicode_generate_raises_iff str_lower m
                (Unicode.combined_text str_lower m)
                (Unicode.detect_integration str_lower
                   (Unicode.combined_text str_lower m)
                   (Unicode.name_text str_lower m) (repo m))
                (Unicode.detect_tags word_char
                   (Unicode.combined_text str_lower m)
                   (Unicode.name_text str_lower m))).
  unfold Unicode.analyze_marketplace.
  destruct (Unicode.generate_descriptions _ _ _ _ _) as [[f v]|e']; simpl; [done|].
  by destruct e'.
Qed.

(** X12: when the transform returns on a record without a description at
    any level, the result holds the tag list ["general"], the label that
    the repo alone gives, and the pair that the plugin names alone give: no
    pair when there are no plugins.  Of [str.lower()] this takes that it
    lower-cases the empty string to itself. *)
Theorem record_without_descriptions (str_lower : list N → list N)
    (word_char : N → bool) (m : MarketplaceRecord) (idx : nat) (r : AnalysisResult) :
  str_lower [] = [] →
  no_description_anywhere m →
  Unicode.analyze_marketplace str_lower word_char m idx = Return r →
  result_repo r = repo m
  ∧ stage_lifecycle_arch r = [py "general"]
  ∧ integration r = Unicode.scan_integrations str_lower integrations [] (repo m)
  ∧ (function r, value r)
    = guess_from_names (Unicode.joined_plugin_names str_lower m)
  ∧ (plugins m = [] → function r = None ∧ value r = None).
Proof.
  intros Hnil Hnone Hr.
  assert (Hc : Unicode.combined_text str_lower m = []).
  { rewrite unicode_combined_text_spec.
    by rewrite (proj2 (spec_all_info_nil m) Hnone). }
  pose proof (no_description_no_text m Hnone) as Hno.
  destruct (unicode_analyze_marketplace_returns _ _ _ _ _ Hr)
    as (Hrepo & Hint & Htags & Hgen).
  rewrite Hc in Hint, Htags, Hgen.
  split; [done|]. split; [by rewrite Htags|]. split.
  { rewrite Hint. unfold Unicode.detect_integration.
    by destruct (Unicode.scan_integrations str_lower integrations [] (repo m)). }
  unfold Unicode.generate_descriptions in Hgen.
  rewrite (proj1 (no_text_test m) Hno) in Hgen.
  unfold Unicode.joined_plugin_names.
  destruct (plugins m) as [|p ps] eqn:Hps.
  - injection Hgen as <- <-. cbn [fmap list_fmap join]. rewrite Hnil.
    split; [by vm_compute | done].
  - rewrite <- Hps in *.
    destruct ((λ p, get_default (plugin_name p) []) <$> plugins m)
      as [|n ns] eqn:Hmap; [by rewrite Hps in Hmap|].
    rewrite <- Hmap in Hgen. unfold join_values in Hgen.
    destruct (mapM id _) as [parts|] eqn:Hparts; [|done].
    apply mapM_names_Some in Hparts as ->.
    cbn [mbind outcome_bind bind] in Hgen. injection Hgen as Hg.
    split; [done | by rewrite Hps].
Qed.

Lemma record_without_descriptions_witness :
  ∃ r, Unicode.analyze_marketplace lower is_word docker_repo_record 0 = Return r
       ∧ function r = Some (py "Generate and run tests for code.")
       ∧ stage_lifecycle_arch r = [py "general"]
       ∧ integration r
         = Unicode.scan_integrations lower integrations [] (repo docker_repo_record)
       ∧ (function r, value r)
         = guess_from_names (Unicode.joined_plugin_names lower docker_repo_record).
Proof.
  set (r := {| result_repo := py "acme/Docker-images";
               function := Some (py "Generate and run tests for code.");
               value := Some (py "Ensure code quality with comprehensive test coverage.");
               stage_lifecycle_arch := [py "general"];
               integration := Some (py "Docker") |}).
  assert (Hr : Unicode.analyze_marketplace lower is_word docker_repo_record 0
               = Return r) by (by vm_compute).
  assert (H : no_description_anywhere docker_repo_record).
  { split; [done|]. intros p Hp.
    change (plugins docker_repo_record)
      with [nameless (Str (py "test-runner")); nameless Absent] in Hp.
    repeat (apply elem_of_cons in Hp as [->|Hp];
            [by repeat split; intros ? ?%elem_of_nil|]).
    by apply elem_of_nil in Hp. }
  destruct (record_without_descriptions lower is_word docker_repo_record 0 r
              eq_refl H Hr) as (_ & Htags & Hint & Hpair & _).
  exists r. split; [exact Hr|]. split; [reflexivity|].
  split; [exact Htags|]. split; [exact Hint | exact Hpair].
Defined.
